(** * Books ETL pipeline: the Collector ([extract_lambda.py]), the Reconciler
    ([transform_lambda.py]) and the connection helpers ([db_utils.py]).

    The Python code is embedded shallowly.  Text is a list of Unicode code
    points, a Python [float] is an IEEE-754 binary64 value ([spec_float] at
    precision 53), a record scraped from the catalog is a dictionary from
    keys to text, and everything that talks to the outside (HTTP, the object
    store, the database, the clock) runs in a state-and-exception monad whose
    state keeps a log of the calls that were made.  The [print] calls of the
    source, which only report progress, are left out. *)

From Stdlib Require Import ZArith NArith Bool Ascii String List Lia.
From Stdlib Require Import Floats.SpecFloat.
From stdpp Require Import base option list strings gmap.

Local Open Scope Z_scope.

(** ** Exceptions and results *)

(** A raised Python exception: [type(e).__name__] and [str(e)]. *)
Record exn := Exn { exn_type : string; exn_msg : list N }.

Inductive result (A : Type) : Type :=
| Ok (a : A)
| Raise (e : exn).
Arguments Ok {A} a.
Arguments Raise {A} e.

Definition rbind {A B} (r : result A) (k : A -> result B) : result B :=
  match r with
  | Ok a => k a
  | Raise e => Raise e
  end.

Definition is_ok {A} (r : result A) : bool :=
  match r with Ok _ => true | Raise _ => false end.

(** ** The Python builtins the two jobs rely on *)
Module Py.

(** *** Text *)

Abbreviation pystr := (list N).

(** An ASCII literal of the source as code points. *)
Definition str (s : string) : pystr :=
  map N_of_ascii (list_ascii_of_string s).

(** U+00A3 POUND SIGN and U+00C2 LATIN CAPITAL LETTER A WITH CIRCUMFLEX:
    the source literal for the mis-encoded symbol is the two code points
    U+00C2 U+00A3. *)
Definition pound : N := 163%N.
Definition a_circumflex : N := 194%N.

Fixpoint starts_with (p s : pystr) : bool :=
  match p, s with
  | [], _ => true
  | _ :: _, [] => false
  | c :: p', d :: s' => (c =? d)%N && starts_with p' s'
  end.

(** [sub in s] *)
Fixpoint contains (sub s : pystr) : bool :=
  starts_with sub s ||
  match s with
  | [] => false
  | _ :: s' => contains sub s'
  end.

(** [s.replace(old, new)] for a non-empty [old]: occurrences are found
    left to right and do not overlap; [skip] counts the code points of a
    match that are still to be dropped. *)
Fixpoint replace_from (old new : pystr) (skip : nat) (s : pystr) : pystr :=
  match s with
  | [] => []
  | c :: s' =>
      match skip with
      | S k => replace_from old new k s'
      | O =>
          if starts_with old s
          then new ++ replace_from old new (length old - 1) s'
          else c :: replace_from old new 0 s'
      end
  end.

(** [s.replace(old, new)]; an empty [old] matches before every code point
    and at the end. *)
Definition replace (old new s : pystr) : pystr :=
  match old with
  | [] => new ++ flat_map (fun c => c :: new) s
  | _ :: _ => replace_from old new 0 s
  end.

(** [str.isspace] on one code point (the table of CPython's
    [_PyUnicode_IsWhitespace]). *)
Definition is_space (c : N) : bool :=
  ((9 <=? c) && (c <=? 13) || (28 <=? c) && (c <=? 32)
   || (c =? 133) || (c =? 160) || (c =? 5760)
   || (8192 <=? c) && (c <=? 8202)
   || (c =? 8232) || (c =? 8233) || (c =? 8239) || (c =? 8287)
   || (c =? 12288))%N.

Fixpoint lstrip (s : pystr) : pystr :=
  match s with
  | [] => []
  | c :: s' => if is_space c then lstrip s' else s
  end.

Definition rstrip (s : pystr) : pystr := rev (lstrip (rev s)).

(** [s.strip()] *)
Definition strip (s : pystr) : pystr := rstrip (lstrip s).

(** *** Floats: IEEE-754 binary64, round to nearest, ties to even *)

Abbreviation float := spec_float.
Definition prec : Z := 53.
Definition emax : Z := 1024.

Definition fadd : float -> float -> float := SFadd prec emax.
Definition fmul : float -> float -> float := SFmul prec emax.
Definition fdiv : float -> float -> float := SFdiv prec emax.

(** The binary64 value nearest to the rational [p / q], for [0 <= p] and
    [0 < q], with sign [neg]; too large a quotient gives an infinity. *)
Definition float_of_ratio (neg : bool) (p q : Z) : float :=
  if p =? 0 then S754_zero neg
  else
    let '(m, e, l) := SFdiv_core_binary prec emax p 0 q 0 in
    binary_round_aux prec emax neg m e l.

Definition is_finite (x : float) : bool :=
  match x with
  | S754_zero _ | S754_finite _ _ _ => true
  | S754_infinity _ | S754_nan => false
  end.

Definition is_zero (x : float) : bool :=
  match x with S754_zero _ => true | _ => false end.

(** [float(n)] for an [int]: exact or correctly rounded, [OverflowError]
    beyond the range of a double. *)
Definition float_of_int (n : Z) : result float :=
  let x := binary_normalize prec emax n 0 false in
  if is_finite x then Ok x
  else Raise (Exn "OverflowError" (str "int too large to convert to float")).

(** *** [float(text)] *)

Definition is_digit (c : N) : bool := ((48 <=? c) && (c <=? 57))%N.

(** ASCII white space, C's [Py_ISSPACE]. *)
Definition is_ascii_space (c : N) : bool :=
  ((9 <=? c) && (c <=? 13) || (c =? 32))%N.

Definition lower (c : N) : N :=
  if ((65 <=? c) && (c <=? 90))%N then (c + 32)%N else c.

Fixpoint str_eqb (s t : pystr) : bool :=
  match s, t with
  | [], [] => true
  | c :: s', d :: t' => (c =? d)%N && str_eqb s' t'
  | _, _ => false
  end.

(** The first pass of [float()] on text: code points below 127 are kept,
    other white space becomes a blank and anything else a question mark,
    which no number contains.  (CPython also maps the decimal digits of other
    scripts to ASCII digits; that table depends on the interpreter's Unicode
    version and is not part of this model, where such text is rejected.) *)
Definition to_ascii_numeric (c : N) : N :=
  if (c <? 127)%N then c else if is_space c then 32%N else 63%N.

(** Underscores are accepted between two digits only, and dropped. *)
Fixpoint drop_underscores (prev : N) (s : pystr) : option pystr :=
  match s with
  | [] => if (prev =? 95)%N then None else Some []
  | c :: s' =>
      if (c =? 95)%N then
        if is_digit prev then drop_underscores c s' else None
      else if (prev =? 95)%N && negb (is_digit c) then None
      else option_map (cons c) (drop_underscores c s')
  end.

Fixpoint lstrip_ascii (s : pystr) : pystr :=
  match s with
  | [] => []
  | c :: s' => if is_ascii_space c then lstrip_ascii s' else s
  end.

(** Reads a run of digits: the value accumulated onto [acc], the number of
    digits added to [n], and what is left. *)
Fixpoint read_digits (acc n : Z) (s : pystr) : Z * Z * pystr :=
  match s with
  | [] => (acc, n, [])
  | c :: s' =>
      if is_digit c
      then read_digits (10 * acc + Z.of_N (c - 48)) (n + 1) s'
      else (acc, n, s)
  end.

Definition read_sign (s : pystr) : bool * pystr :=
  match s with
  | c :: s' =>
      if (c =? 45)%N then (true, s')
      else if (c =? 43)%N then (false, s')
      else (false, s)
  | [] => (false, [])
  end.

(** The double nearest to [d * 10 ^ k], for [0 <= d]. *)
Definition float_of_decimal (neg : bool) (d k : Z) : float :=
  if 0 <=? k then float_of_ratio neg (d * 10 ^ k) 1
  else float_of_ratio neg d (10 ^ (- k)).

Definition parse_inf_nan (neg : bool) (s : pystr) : option float :=
  let t := map lower s in
  if str_eqb t (str "inf") || str_eqb t (str "infinity")
  then Some (S754_infinity neg)
  else if str_eqb t (str "nan") then Some S754_nan
  else None.

(** [digits [. digits] [(e|E) [sign] digits]] with at least one digit before
    the exponent; an exponent without digits is not consumed, so the text is
    not a number. *)
Definition parse_number (neg : bool) (s : pystr) : option float :=
  let '(d1, n1, r1) := read_digits 0 0 s in
  let '(d, n2, r2) :=
    match r1 with
    | c :: r => if (c =? 46)%N then read_digits d1 0 r else (d1, 0, r1)
    | [] => (d1, 0, r1)
    end in
  if n1 + n2 =? 0 then None
  else
    let '(ex, r3) :=
      match r2 with
      | c :: r =>
          if (c =? 101)%N || (c =? 69)%N then
            let '(eneg, r') := read_sign r in
            let '(ev, en, r'') := read_digits 0 0 r' in
            if en =? 0 then (0, r2)
            else (if eneg then - ev else ev, r'')
          else (0, r2)
      | [] => (0, [])
      end in
    match r3 with
    | [] => Some (float_of_decimal neg d (ex - n2))
    | _ :: _ => None
    end.

Definition float_from_string (s : pystr) : option float :=
  match drop_underscores 0%N (map to_ascii_numeric s) with
  | None => None
  | Some t =>
      let body := rev (lstrip_ascii (rev (lstrip_ascii t))) in
      let '(neg, r) := read_sign body in
      match parse_inf_nan neg r with
      | Some x => Some x
      | None => parse_number neg r
      end
  end.

(** [float(s)] for a [str]: [ValueError] when [s] is not a number.  The
    message shows the text between quotes, without the escapes of [repr]. *)
Definition py_float (s : pystr) : result float :=
  match float_from_string s with
  | Some x => Ok x
  | None =>
      Raise (Exn "ValueError"
               (str "could not convert string to float: '" ++ s ++ str "'"))
  end.

(** *** Numbers: [int] and [float] *)

Inductive pynum :=
| PInt (n : Z)
| PFloat (x : float).

Definition to_float (a : pynum) : result float :=
  match a with
  | PInt n => float_of_int n
  | PFloat x => Ok x
  end.

(** [a + b] *)
Definition add (a b : pynum) : result pynum :=
  match a, b with
  | PInt m, PInt n => Ok (PInt (m + n))
  | _, _ =>
      rbind (to_float a) (fun x =>
      rbind (to_float b) (fun y => Ok (PFloat (fadd x y))))
  end.

(** [a * b] *)
Definition mul (a b : pynum) : result pynum :=
  match a, b with
  | PInt m, PInt n => Ok (PInt (m * n))
  | _, _ =>
      rbind (to_float a) (fun x =>
      rbind (to_float b) (fun y => Ok (PFloat (fmul x y))))
  end.

(** [a / b]: true division never yields an [int]. *)
Definition truediv (a b : pynum) : result pynum :=
  match a, b with
  | PInt m, PInt n =>
      if n =? 0 then Raise (Exn "ZeroDivisionError" (str "division by zero"))
      else
        let q := float_of_ratio (xorb (m <? 0) (n <? 0)) (Z.abs m) (Z.abs n) in
        if is_finite q then Ok (PFloat q)
        else Raise (Exn "OverflowError"
                      (str "integer division result too large for a float"))
  | _, _ =>
      rbind (to_float a) (fun x =>
      rbind (to_float b) (fun y =>
        if is_zero y
        then Raise (Exn "ZeroDivisionError" (str "float division by zero"))
        else Ok (PFloat (fdiv x y))))
  end.

(** The integer nearest to [p / q] for [0 < q], ties to the even one. *)
Definition round_half_even (p q : Z) : Z :=
  let '(d, r) := Z.div_eucl p q in
  match 2 * r ?= q with
  | Lt => d
  | Eq => if Z.even d then d else d + 1
  | Gt => d + 1
  end.

(** [round(x, ndigits)] for a float: the exact binary value is rounded to
    [ndigits] decimals, ties to even, and the decimal result converted back
    to the nearest double (CPython's [double_round]). *)
Definition float_round (x : float) (ndigits : Z) : result float :=
  match x with
  | S754_finite s m e =>
      if 323 <? ndigits then Ok x
      else if ndigits <? -308 then Ok (S754_zero s)
      else
        let p10 := 10 ^ Z.abs ndigits in
        let num := Zpos m * (if 0 <=? e then 2 ^ e else 1)
                   * (if 0 <=? ndigits then p10 else 1) in
        let den := (if 0 <=? e then 1 else 2 ^ (- e))
                   * (if 0 <=? ndigits then 1 else p10) in
        let n := round_half_even num den in
        let r := if 0 <=? ndigits then float_of_ratio s n p10
                 else float_of_ratio s (n * p10) 1 in
        if is_finite r then Ok r
        else Raise (Exn "OverflowError"
                      (str "rounded value too large to represent"))
  | _ => Ok x
  end.

(** [round(a, ndigits)]: an [int] stays an [int]. *)
Definition round (a : pynum) (ndigits : Z) : result pynum :=
  match a with
  | PInt n =>
      if 0 <=? ndigits then Ok (PInt n)
      else
        let q := 10 ^ (- ndigits) in
        Ok (PInt (round_half_even n q * q))
  | PFloat x => rbind (float_round x ndigits) (fun r => Ok (PFloat r))
  end.

(** A float literal of the source, [d.ddd] written as digits and scale. *)
Definition literal (d k : Z) : float := float_of_decimal false d k.

End Py.

(** ** Data model *)

(** A raw book record, as scraped and as stored in the raw JSON object: a
    dictionary with the keys ["title"], ["price"], ["availability"]. *)
Abbreviation book := (gmap string (list N)).

(** [book[key]]: [KeyError] when the key is absent. *)
Definition subscript (b : book) (key : string) : result (list N) :=
  match b !! key with
  | Some v => Ok v
  | None => Raise (Exn "KeyError" (Py.str "'" ++ Py.str key ++ Py.str "'"))
  end.

(** A reading of [datetime.utcnow()]: its renderings by
    [strftime("%Y-%m-%d")], [strftime("%Y-%m-%d_%H%M%S")] and [isoformat()],
    and its position on the time line in microseconds. *)
Record datetime := {
  dt_date : list N;
  dt_stamp : list N;
  dt_iso : list N;
  dt_micros : Z
}.

(** The record the Reconciler builds for a book in stock. *)
Record processed_book := {
  pb_title : list N;
  pb_price_gbp : Py.pynum;
  pb_price_usd : Py.pynum;
  pb_price_eur : Py.pynum;
  pb_in_stock : bool;
  pb_availability : list N;
  pb_processed_at : list N
}.

(** The Daily Summary. *)
Record summary := {
  sm_date : list N;
  sm_total_books_raw : Z;
  sm_books_in_stock : Z;
  sm_books_out_of_stock : Z;
  sm_total_inventory_value_gbp : Py.pynum;
  sm_total_inventory_value_usd : Py.pynum;
  sm_average_price_gbp : Py.pynum;
  sm_processed_at : list N
}.

(** What [json.dumps] serialises into an object of the bucket. *)
Inductive s3_body :=
| RawBooks (books : list book)
| ProcessedBooks (books : list processed_book)
| SummaryDoc (s : summary).

(** *** The staging table and the statements sent to the database *)

Inductive sqlval :=
| VNull
| VInt (n : Z)
| VFloat (x : spec_float)
| VText (s : list N)
| VBool (b : bool).

Record staging_row := {
  sr_title : list N;
  sr_price_gbp : spec_float;
  sr_availability : list N;
  sr_is_in_stock : bool;
  sr_scraped_date : list N;
  sr_batch_id : list N;
  sr_processed : bool;
  sr_created_at : Z
}.

Inductive column :=
| c_title | c_price_gbp | c_availability | c_is_in_stock
| c_scraped_date | c_batch_id | c_processed | c_created_at.

Inductive condition :=
| EqParam (c : column) (i : nat)      (* column = %s, the i-th parameter *)
| EqBool (c : column) (b : bool).     (* column = TRUE / FALSE *)

(** A [SELECT] over [staging_books], clause by clause. *)
Record select_stmt := {
  sel_distinct : bool;
  sel_columns : list column;
  sel_where : list condition;
  sel_order_by : list (column * bool);   (* [true] for DESC *)
  sel_limit : option nat
}.

Inductive sql :=
| SelectOne                       (* SELECT 1 *)
| InsertStaging                   (* INSERT INTO staging_books (title,
                                     price_gbp, availability, is_in_stock,
                                     scraped_date, batch_id) VALUES (...) *)
| SelectStaging (q : select_stmt)
| CallProcessCdcBatch.            (* SELECT * FROM process_cdc_batch(%s, %s) *)

(** What a cursor holds after [execute]: the rows of the result set, if the
    statement has one, and [rowcount]. *)
Record cursor := {
  cur_rows : option (list (list sqlval));
  cur_rowcount : Z
}.

(** *** Calls to the outside, and the world that answers them *)

Inductive event :=
| HttpGet
| S3GetObject (key : list N)
| S3PutObject (key : list N) (body : s3_body)
| PoolGetConn
| PoolPutConn
| DbExecute (q : sql) (params : list sqlval)
| DbExecuteMany (q : sql) (rows : list (list sqlval))
| DbCommit
| DbRollback.

Record world := {
  (** successive readings of [datetime.utcnow()] *)
  w_clock : nat -> datetime;
  (** the n-th call to an outside service raises this exception *)
  w_fault : nat -> option exn;
  (** the records the three extraction rules find on the fetched page *)
  w_page : list book;
  (** the raw objects of the bucket, decoded; [None] when the key is absent *)
  w_raw : list N -> option (list book);
  (** the stored procedure [process_cdc_batch]: from its arguments and the
      staging table, the rows it returns and the staging table it leaves *)
  w_cdc : list sqlval -> list staging_row ->
          list (list sqlval) * list staging_row;
  (** the database's [now()] at the n-th outside call *)
  w_db_now : nat -> Z
}.

Record state := {
  st_ticks : nat;                 (* clock readings taken so far *)
  st_calls : nat;                 (* outside calls made so far *)
  st_log : list event;            (* the calls, oldest first *)
  st_db : list staging_row;       (* staging_books, committed *)
  st_tx : list staging_row        (* staging_books, as the open transaction sees it *)
}.

Definition initial_state (table : list staging_row) : state :=
  {| st_ticks := 0; st_calls := 0; st_log := []; st_db := table; st_tx := table |}.

(** ** The monad: state that survives an exception *)

Definition M (A : Type) : Type := state -> result A * state.

Definition ret {A} (a : A) : M A := fun st => (Ok a, st).

Definition raise {A} (e : exn) : M A := fun st => (Raise e, st).

Definition bind {A B} (m : M A) (k : A -> M B) : M B :=
  fun st =>
    match m st with
    | (Ok a, st') => k a st'
    | (Raise e, st') => (Raise e, st')
    end.

Notation "x <- m ;; k" := (bind m (fun x => k))
  (at level 100, m at next level, k at level 200, right associativity).
Notation "m ;; k" := (bind m (fun _ => k))
  (at level 100, k at level 200, right associativity).

(** A step written directly on the state. *)
Definition step {A} (f : state -> result A * state) : M A := f.

(** A computation without effects, which may raise. *)
Definition lift {A} (r : result A) : M A := fun st => (r, st).

(** [try: body / except Exception as e: handler e] *)
Definition try_except {A} (body : M A) (handler : exn -> M A) : M A :=
  fun st =>
    match body st with
    | (Ok a, st') => (Ok a, st')
    | (Raise e, st') => handler e st'
    end.

(** [try: body / finally: cleanup]: the cleanup always runs; an exception of
    the cleanup replaces the outcome of the body. *)
Definition try_finally {A} (body : M A) (cleanup : M unit) : M A :=
  fun st =>
    let '(r, st') := body st in
    match cleanup st' with
    | (Ok _, st'') => (r, st'')
    | (Raise e, st'') => (Raise e, st'')
    end.

(** [Exception(msg)] *)
Definition Exception (msg : list N) : exn := Exn "Exception" msg.

Definition set_log (st : state) (calls : nat) (log : list event) : state :=
  {| st_ticks := st_ticks st; st_calls := calls; st_log := log;
     st_db := st_db st; st_tx := st_tx st |}.

Definition set_tables (st : state) (db tx : list staging_row) : state :=
  {| st_ticks := st_ticks st; st_calls := st_calls st; st_log := st_log st;
     st_db := db; st_tx := tx |}.

Definition tick (st : state) : state :=
  {| st_ticks := S (st_ticks st); st_calls := st_calls st;
     st_log := st_log st; st_db := st_db st; st_tx := st_tx st |}.

Section World.

Variable w : world.

(** [datetime.utcnow()] *)
Definition utcnow : M datetime :=
  fun st => (Ok (w_clock w (st_ticks st)), tick st).

(** One call to an outside service: it is logged, and it fails when the
    world says so. *)
Definition outside (ev : event) : M unit :=
  fun st =>
    let st' := set_log st (S (st_calls st)) (st_log st ++ [ev]) in
    match w_fault w (st_calls st) with
    | Some e => (Raise e, st')
    | None => (Ok tt, st')
    end.

End World.

(** ** The database as the jobs see it: PostgreSQL through psycopg2 *)
Module Pg.

#[global] Instance column_eq_dec : EqDecision column.
Proof. solve_decision. Defined.

#[global] Instance spec_float_eq_dec : EqDecision spec_float.
Proof. solve_decision. Defined.

#[global] Instance sqlval_eq_dec : EqDecision sqlval.
Proof. solve_decision. Defined.

Definition column_value (c : column) (r : staging_row) : sqlval :=
  match c with
  | c_title => VText (sr_title r)
  | c_price_gbp => VFloat (sr_price_gbp r)
  | c_availability => VText (sr_availability r)
  | c_is_in_stock => VBool (sr_is_in_stock r)
  | c_scraped_date => VText (sr_scraped_date r)
  | c_batch_id => VText (sr_batch_id r)
  | c_processed => VBool (sr_processed r)
  | c_created_at => VInt (sr_created_at r)
  end.

Fixpoint text_compare (s t : list N) : comparison :=
  match s, t with
  | [], [] => Eq
  | [], _ :: _ => Lt
  | _ :: _, [] => Gt
  | c :: s', d :: t' =>
      match (c ?= d)%N with
      | Eq => text_compare s' t'
      | o => o
      end
  end.

Definition sqlval_compare (a b : sqlval) : comparison :=
  match a, b with
  | VInt m, VInt n => m ?= n
  | VText s, VText t => text_compare s t
  | VBool x, VBool y => Bool.compare x y
  | VFloat x, VFloat y =>
      match SFcompare x y with Some o => o | None => Eq end
  | _, _ => Eq
  end.

Definition holds (params : list sqlval) (r : staging_row) (c : condition)
  : bool :=
  match c with
  | EqParam col i =>
      match params !! i with
      | Some v => bool_decide (column_value col r = v)
      | None => false
      end
  | EqBool col b => bool_decide (column_value col r = VBool b)
  end.

Fixpoint order_compare (ob : list (column * bool)) (a b : staging_row)
  : comparison :=
  match ob with
  | [] => Eq
  | (c, desc) :: ob' =>
      match sqlval_compare (column_value c a) (column_value c b) with
      | Eq => order_compare ob' a b
      | o => if desc then CompOpp o else o
      end
  end.

Fixpoint insert_sorted (ob : list (column * bool)) (r : staging_row)
  (l : list staging_row) : list staging_row :=
  match l with
  | [] => [r]
  | x :: l' =>
      match order_compare ob r x with
      | Lt => r :: l
      | _ => x :: insert_sorted ob r l'
      end
  end.

Definition sort_rows (ob : list (column * bool)) (l : list staging_row)
  : list staging_row :=
  fold_left (fun acc r => insert_sorted ob r acc) l [].

(** SQLSTATE 42P10, raised when the statement is analysed, whatever the
    table holds. (psycopg2 appends the position in the statement to the
    message.) *)
Definition InvalidColumnReference : exn :=
  Exn "InvalidColumnReference"
    (Py.str "for SELECT DISTINCT, ORDER BY expressions must appear in select list").

(** A [SELECT] over the staging table.  PostgreSQL rejects a
    [SELECT DISTINCT] whose [ORDER BY] names a column that is not in the
    select list; otherwise the rows are filtered, ordered, projected, made
    distinct and limited. *)
Definition select (q : select_stmt) (params : list sqlval)
  (table : list staging_row) : result (list (list sqlval)) :=
  if sel_distinct q
     && negb (forallb (fun o => bool_decide (fst o ∈ sel_columns q))
                (sel_order_by q))
  then Raise InvalidColumnReference
  else
    let rows :=
      List.filter (fun r => forallb (holds params r) (sel_where q)) table in
    let sorted := sort_rows (sel_order_by q) rows in
    let projected :=
      map (fun r => map (fun c => column_value c r) (sel_columns q)) sorted in
    let distinct := if sel_distinct q then remove_dups projected else projected in
    Ok (match sel_limit q with
        | Some n => take n distinct
        | None => distinct
        end).

(** The row an [INSERT INTO staging_books] adds for one tuple of
    parameters: [processed] and [created_at] take their defaults. *)
Definition insert_row (now : Z) (params : list sqlval) : result staging_row :=
  match params with
  | [VText t; VFloat p; VText a; VBool s; VText d; VText b] =>
      Ok {| sr_title := t; sr_price_gbp := p; sr_availability := a;
            sr_is_in_stock := s; sr_scraped_date := d; sr_batch_id := b;
            sr_processed := false; sr_created_at := now |}
  | _ => Raise (Exn "DataError" (Py.str "invalid input for staging_books"))
  end.

Fixpoint insert_rows (now : Z) (rows : list (list sqlval))
  : result (list staging_row) :=
  match rows with
  | [] => Ok []
  | p :: rows' =>
      rbind (insert_row now p) (fun r =>
      rbind (insert_rows now rows') (fun rs => Ok (r :: rs)))
  end.

Definition no_result_set : exn :=
  Exn "ProgrammingError" (Py.str "no results to fetch").

(** [cursor.fetchone()] *)
Definition fetchone (c : cursor) : result (option (list sqlval)) :=
  match cur_rows c with
  | Some [] => Ok None
  | Some (r :: _) => Ok (Some r)
  | None => Raise no_result_set
  end.

(** [cursor.fetchall()] *)
Definition fetchall (c : cursor) : result (list (list sqlval)) :=
  match cur_rows c with
  | Some rows => Ok rows
  | None => Raise no_result_set
  end.

Section W.

Variable w : world.

(** [cursor.execute(query, params)] *)
Definition execute (q : sql) (params : list sqlval) : M cursor :=
  outside w (DbExecute q params) ;;
  step (fun st =>
    match q with
    | SelectOne =>
        (Ok {| cur_rows := Some [[VInt 1]]; cur_rowcount := 1 |}, st)
    | InsertStaging =>
        match insert_row (w_db_now w (st_calls st)) params with
        | Ok r =>
            (Ok {| cur_rows := None; cur_rowcount := 1 |},
             set_tables st (st_db st) (st_tx st ++ [r]))
        | Raise e => (Raise e, st)
        end
    | SelectStaging s =>
        match select s params (st_tx st) with
        | Ok rows =>
            (Ok {| cur_rows := Some rows;
                   cur_rowcount := Z.of_nat (length rows) |}, st)
        | Raise e => (Raise e, st)
        end
    | CallProcessCdcBatch =>
        let '(rows, table) := w_cdc w params (st_tx st) in
        (Ok {| cur_rows := Some rows;
               cur_rowcount := Z.of_nat (length rows) |},
         set_tables st (st_db st) table)
    end).

(** [cursor.executemany(query, rows)] *)
Definition executemany (q : sql) (rows : list (list sqlval)) : M unit :=
  outside w (DbExecuteMany q rows) ;;
  step (fun st =>
    match q with
    | InsertStaging =>
        match insert_rows (w_db_now w (st_calls st)) rows with
        | Ok rs => (Ok tt, set_tables st (st_db st) (st_tx st ++ rs))
        | Raise e => (Raise e, st)
        end
    | _ => (Ok tt, st)
    end).

(** [conn.commit()] *)
Definition commit : M unit :=
  outside w DbCommit ;;
  step (fun st => (Ok tt, set_tables st (st_tx st) (st_tx st))).

(** [conn.rollback()] *)
Definition rollback : M unit :=
  outside w DbRollback ;;
  step (fun st => (Ok tt, set_tables st (st_db st) (st_db st))).

End W.
End Pg.

(** ** [db_utils.py] *)
Module DbUtils.
Section W.

Variable w : world.

(** [get_db_connection()].  Creating the pool on first use, fetching the
    credentials and taking a connection are one fallible call here: each of
    their failures is an exception of that call. *)
Definition get_db_connection : M unit := outside w PoolGetConn.

(** [return_db_connection(conn)]: an exception of [putconn] is caught and
    printed. *)
Definition return_db_connection : M unit :=
  fun st => let '(_, st') := outside w PoolPutConn st in (Ok tt, st').

(** The shape shared by every function that uses a connection:
<<
    conn = None
    try:
        conn = get_db_connection()
        body
    except Exception as e:
        if conn: on_error
        raise
    finally:
        if conn: return_db_connection(conn)
>>
    When the connection cannot be obtained, [conn] is still [None]: nothing
    is rolled back and nothing is returned to the pool. *)
Definition with_connection {A} (on_error : M unit) (body : M A) : M A :=
  fun st =>
    match get_db_connection st with
    | (Raise e, st1) => (Raise e, st1)
    | (Ok _, st1) =>
        try_finally
          (try_except body (fun e => on_error ;; raise e))
          return_db_connection st1
    end.

Inductive query_result :=
| Rows (rows : list (list sqlval))
| RowCount (n : Z).

(** [execute_query(query, params, fetch)] *)
Definition execute_query (query : sql) (params : list sqlval) (fetch : bool)
  : M query_result :=
  with_connection (Pg.rollback w)
    (cur <- Pg.execute w query params ;;
     if fetch then
       results <- lift (Pg.fetchall cur) ;;
       Pg.commit w ;;
       ret (Rows results)
     else
       let row_count := cur_rowcount cur in
       Pg.commit w ;;
       ret (RowCount row_count)).

(** [v == 1] *)
Definition equals_one (v : sqlval) : bool :=
  match v with
  | VInt n => n =? 1
  | VBool b => b
  | VFloat x => SFeqb x (Py.literal 1 0)
  | _ => false
  end.

(** [test_connection()]: never raises. *)
Definition test_connection : M bool :=
  try_except
    (result <- execute_query SelectOne [] true ;;
     ret (match result with
           | Rows ((v :: _) :: _) => equals_one v
           | _ => false
           end))
    (fun _ => ret false).

(** [generate_batch_id(prefix)] *)
Definition generate_batch_id (prefix : list N) : M (list N) :=
  now <- utcnow w ;;
  ret (prefix ++ Py.str "_" ++ dt_stamp now).

End W.
End DbUtils.

(** [(end_time - start_time).total_seconds()] rounded to two decimals. *)
Definition elapsed_seconds (start_time end_time : datetime) : result Py.pynum :=
  rbind (Py.truediv (Py.PInt (dt_micros end_time - dt_micros start_time))
           (Py.PInt 1000000))
        (fun duration_seconds => Py.round duration_seconds 2).

(** ** The object store through boto3 *)
Module S3.

Definition NoSuchKey : exn :=
  Exn "NoSuchKey"
    (Py.str "An error occurred (NoSuchKey) when calling the GetObject operation: The specified key does not exist.").

Section W.

Variable w : world.

(** [s3.get_object(Bucket=BUCKET, Key=key)] and the decoding of its body by
    [json.loads]. *)
Definition get_object (key : list N) : M (list book) :=
  outside w (S3GetObject key) ;;
  match w_raw w key with
  | Some books => ret books
  | None => raise NoSuchKey
  end.

(** [s3.put_object(Bucket=BUCKET, Key=key, Body=json.dumps(body), ...)] *)
Definition put_object (key : list N) (body : s3_body) : M unit :=
  outside w (S3PutObject key body).

End W.
End S3.

(** ** The Collector: [extract_lambda.py] *)
Module Extract.

(** [parse_price(price_str)].  Its [except ValueError] prints and re-raises. *)
Definition parse_price (price_str : list N) : result spec_float :=
  let cleaned :=
    Py.strip (Py.replace [Py.a_circumflex] []
                (Py.replace [Py.pound] [] price_str)) in
  Py.py_float cleaned.

(** The body of the [try] inside the loop of [save_to_rds]: the tuple
    appended to [batch_data] for one book. *)
Definition staging_tuple (book : book) (run_date batch_id : list N)
  : result (list sqlval) :=
  rbind (subscript book "price") (fun price =>
  rbind (parse_price price) (fun price_gbp =>
  rbind (subscript book "availability") (fun availability =>
  let is_in_stock := Py.contains (Py.str "In stock") availability in
  rbind (subscript book "title") (fun title =>
  Ok [VText title; VFloat price_gbp; VText availability; VBool is_in_stock;
      VText run_date; VText batch_id])))).

(** The loop of [save_to_rds]: a book whose tuple cannot be built is
    skipped ([except Exception: ... continue]). *)
Fixpoint batch_data (books : list book) (run_date batch_id : list N)
  : list (list sqlval) :=
  match books with
  | [] => []
  | book :: rest =>
      match staging_tuple book run_date batch_id with
      | Ok t => t :: batch_data rest run_date batch_id
      | Raise _ => batch_data rest run_date batch_id
      end
  end.

(** The success result of the handler. *)
Record success_result := {
  r_status : list N;
  r_run_date : list N;
  r_batch_id : list N;
  r_records_scraped : Z;
  r_records_inserted_rds : Z;
  r_s3_key : list N;
  r_execution_time_seconds : Py.pynum;
  r_timestamp : list N
}.

Section W.

Variable w : world.

(** [scrape_books()]: the fetch, the status check, the parsing of the page
    and the three extraction rules are one outside call that yields the
    records found; its [except] prints and re-raises. *)
Definition scrape_books : M (list book) :=
  outside w HttpGet ;;
  ret (w_page w).

(** [save_to_s3(books, run_date)] *)
Definition save_to_s3 (books : list book) (run_date : list N) : M (list N) :=
  let key := Py.str "raw/books/date=" ++ run_date ++ Py.str "/books.json" in
  S3.put_object w key (RawBooks books) ;;
  ret key.

(** [save_to_rds(books, run_date, s3_key, batch_id)] *)
Definition save_to_rds (books : list book) (run_date s3_key batch_id : list N)
  : M Z :=
  DbUtils.with_connection w (Pg.rollback w)
    (let batch_data := batch_data books run_date batch_id in
     Pg.executemany w InsertStaging batch_data ;;
     Pg.commit w ;;
     let inserted_count := Z.of_nat (length batch_data) in
     ret inserted_count).

(** The [try] block of [lambda_handler]. *)
Definition handler_body (start_time : datetime) (run_date batch_id : list N)
  : M success_result :=
  ok <- DbUtils.test_connection w ;;
  (if ok then ret tt
   else raise (Exception (Py.str "Database connection test failed"))) ;;
  books <- scrape_books ;;
  (if Nat.eqb (length books) 0
   then raise (Exception
                 (Py.str "No books scraped - possible website structure change"))
   else ret tt) ;;
  s3_key <- save_to_s3 books run_date ;;
  db_records <- save_to_rds books run_date s3_key batch_id ;;
  end_time <- utcnow w ;;
  seconds <- lift (elapsed_seconds start_time end_time) ;;
  ret {| r_status := Py.str "success";
         r_run_date := run_date;
         r_batch_id := batch_id;
         r_records_scraped := Z.of_nat (length books);
         r_records_inserted_rds := db_records;
         r_s3_key := s3_key;
         r_execution_time_seconds := seconds;
         r_timestamp := dt_iso end_time |}.

(** The [except Exception as e] block of [lambda_handler]: the error result
    is built and reported, then the exception is raised again. *)
Definition handler_except (start_time : datetime) (e : exn)
  : M success_result :=
  end_time <- utcnow w ;;
  seconds <- lift (elapsed_seconds start_time end_time) ;;
  raise e.

(** [lambda_handler(event, context)] *)
Definition lambda_handler : M success_result :=
  start_time <- utcnow w ;;
  let run_date := dt_date start_time in
  batch_id <- DbUtils.generate_batch_id w (Py.str "extract") ;;
  try_except (handler_body start_time run_date batch_id)
    (handler_except start_time).

End W.
End Extract.

(** ** The Reconciler: [transform_lambda.py] *)
Module Transform.

(** The price extraction at the head of the loop of [transform_data]. *)
Definition extract_price (price : list N) : result spec_float :=
  let price_str :=
    Py.strip (Py.replace [Py.pound] []
                (Py.replace [Py.a_circumflex; Py.pound] [] price)) in
  Py.py_float price_str.

(** The exchange rates, as the literals [1.27] and [1.17]. *)
Definition usd_rate : spec_float := Py.literal 127 (-2).
Definition eur_rate : spec_float := Py.literal 117 (-2).

(** The local variables of [transform_data] that the loop updates. *)
Record totals := {
  processed : list processed_book;
  total_value_gbp : Py.pynum;
  in_stock_count : Z;
  out_of_stock_count : Z
}.

(** What the dictionary of a processed book evaluates before it reads the
    clock: title, the three rounded prices, availability. *)
Definition processed_fields (book : book) (price_gbp : spec_float)
  : result (list N * Py.pynum * Py.pynum * Py.pynum * list N) :=
  rbind (subscript book "title") (fun title =>
  rbind (Py.round (Py.PFloat price_gbp) 2) (fun gbp =>
  rbind (Py.mul (Py.PFloat price_gbp) (Py.PFloat usd_rate)) (fun usd0 =>
  rbind (Py.round usd0 2) (fun usd =>
  rbind (Py.mul (Py.PFloat price_gbp) (Py.PFloat eur_rate)) (fun eur0 =>
  rbind (Py.round eur0 2) (fun eur =>
  rbind (subscript book "availability") (fun availability =>
  Ok (title, gbp, usd, eur, availability)))))))).

(** The CDC Result. *)
Record cdc_summary := {
  new_books : sqlval;
  removed_books : sqlval;
  price_changes : sqlval;
  stock_changes : sqlval;
  total_processed : sqlval
}.

(** The [body] of the handler's answer, before [json.dumps]. *)
Inductive body :=
| SuccessBody (run_date : list N) (batch_id : sqlval)
    (processed_records : Z) (summary : summary) (cdc : cdc_summary)
    (processed_key summary_key : list N)
    (execution_time_seconds : Py.pynum) (timestamp : list N)
| ErrorBody (run_date error_message : list N) (error_type : string)
    (execution_time_seconds : Py.pynum) (timestamp : list N).

Record response := { statusCode : Z; response_body : body }.

(** The statement of [get_extract_batch_id]:
<<
    SELECT DISTINCT batch_id FROM staging_books
    WHERE scraped_date = %s AND processed = FALSE
    ORDER BY created_at DESC LIMIT 1
>> *)
Definition batch_id_query : select_stmt :=
  {| sel_distinct := true;
     sel_columns := [c_batch_id];
     sel_where := [EqParam c_scraped_date 0; EqBool c_processed false];
     sel_order_by := [(c_created_at, true)];
     sel_limit := Some 1%nat |}.

Section W.

Variable w : world.

(** [read_from_s3(run_date)] *)
Definition read_from_s3 (run_date : list N) : M (list book) :=
  let raw_key := Py.str "raw/books/date=" ++ run_date ++ Py.str "/books.json" in
  try_except (S3.get_object w raw_key)
    (fun e =>
       if String.eqb (exn_type e) "NoSuchKey"
       then raise (Exception (Py.str "Raw data file not found: " ++ raw_key))
       else raise e).

(** One turn of the loop of [transform_data].  Whatever is raised inside the
    [try] is caught and the loop goes on; the counters updated before the
    exception keep their new values. *)
Definition transform_book (book : book) (acc : totals) : M totals :=
  match rbind (subscript book "price") extract_price with
  | Raise _ => ret acc
  | Ok price_gbp =>
      match subscript book "availability" with
      | Raise _ => ret acc
      | Ok availability =>
          let is_in_stock := Py.contains (Py.str "In stock") availability in
          if is_in_stock then
            let in_stock_count' := in_stock_count acc + 1 in
            match Py.add (total_value_gbp acc) (Py.PFloat price_gbp) with
            | Raise _ =>
                ret {| processed := processed acc;
                        total_value_gbp := total_value_gbp acc;
                        in_stock_count := in_stock_count';
                        out_of_stock_count := out_of_stock_count acc |}
            | Ok total' =>
                match processed_fields book price_gbp with
                | Raise _ =>
                    ret {| processed := processed acc;
                            total_value_gbp := total';
                            in_stock_count := in_stock_count';
                            out_of_stock_count := out_of_stock_count acc |}
                | Ok (title, gbp, usd, eur, availability') =>
                    now <- utcnow w ;;
                    let processed_book :=
                      {| pb_title := title;
                         pb_price_gbp := gbp;
                         pb_price_usd := usd;
                         pb_price_eur := eur;
                         pb_in_stock := true;
                         pb_availability := availability';
                         pb_processed_at := dt_iso now |} in
                    ret {| processed := processed acc ++ [processed_book];
                            total_value_gbp := total';
                            in_stock_count := in_stock_count';
                            out_of_stock_count := out_of_stock_count acc |}
                end
            end
          else
            ret {| processed := processed acc;
                    total_value_gbp := total_value_gbp acc;
                    in_stock_count := in_stock_count acc;
                    out_of_stock_count := out_of_stock_count acc + 1 |}
      end
  end.

Fixpoint transform_loop (raw_data : list book) (acc : totals) : M totals :=
  match raw_data with
  | [] => ret acc
  | book :: rest =>
      acc' <- transform_book book acc ;;
      transform_loop rest acc'
  end.

(** [transform_data(raw_data)] *)
Definition transform_data (raw_data : list book)
  : M (list processed_book * summary) :=
  acc <- transform_loop raw_data
          {| processed := []; total_value_gbp := Py.PInt 0;
             in_stock_count := 0; out_of_stock_count := 0 |} ;;
  today <- utcnow w ;;
  value_gbp <- lift (Py.round (total_value_gbp acc) 2) ;;
  value_usd <- lift (rbind (Py.mul (total_value_gbp acc) (Py.PFloat usd_rate))
                      (fun v => Py.round v 2)) ;;
  average <- lift (if 0 <? in_stock_count acc
                  then rbind (Py.truediv (total_value_gbp acc)
                                (Py.PInt (in_stock_count acc)))
                         (fun v => Py.round v 2)
                  else Ok (Py.PInt 0)) ;;
  now <- utcnow w ;;
  let summary :=
    {| sm_date := dt_date today;
       sm_total_books_raw := Z.of_nat (length raw_data);
       sm_books_in_stock := in_stock_count acc;
       sm_books_out_of_stock := out_of_stock_count acc;
       sm_total_inventory_value_gbp := value_gbp;
       sm_total_inventory_value_usd := value_usd;
       sm_average_price_gbp := average;
       sm_processed_at := dt_iso now |} in
  ret (processed acc, summary).

(** [save_processed_to_s3(processed, summary, run_date)] *)
Definition save_processed_to_s3 (processed : list processed_book)
  (summary : summary) (run_date : list N) : M (list N * list N) :=
  let processed_key :=
    Py.str "processed/books/date=" ++ run_date ++ Py.str "/books.json" in
  S3.put_object w processed_key (ProcessedBooks processed) ;;
  let summary_key :=
    Py.str "processed/summary/date=" ++ run_date ++ Py.str "/summary.json" in
  S3.put_object w summary_key (SummaryDoc summary) ;;
  ret (processed_key, summary_key).

(** [execute_cdc_batch_processing(batch_id, run_date)] *)
Definition execute_cdc_batch_processing (batch_id : sqlval)
  (run_date : list N) : M cdc_summary :=
  DbUtils.with_connection w (Pg.rollback w)
    (cur <- Pg.execute w CallProcessCdcBatch [batch_id; VText run_date] ;;
     result <- lift (Pg.fetchone cur) ;;
     match result with
     | Some [a; b; c; d; e] =>
         let cdc_summary :=
           {| new_books := a; removed_books := b; price_changes := c;
              stock_changes := d; total_processed := e |} in
         Pg.commit w ;;
         ret cdc_summary
     | Some ((_ :: _) as row) =>
         (* a row of another width: the unpacking fails *)
         raise (Exn "ValueError"
                  (if Nat.ltb (length row) 5
                   then Py.str "not enough values to unpack"
                   else Py.str "too many values to unpack (expected 5)"))
     | Some [] | None =>
         raise (Exception (Py.str "CDC stored procedure returned no results"))
     end).

(** [get_extract_batch_id(run_date)]: its [except] prints and re-raises,
    without a rollback. *)
Definition get_extract_batch_id (run_date : list N) : M sqlval :=
  DbUtils.with_connection w (ret tt)
    (cur <- Pg.execute w (SelectStaging batch_id_query) [VText run_date] ;;
     result <- lift (Pg.fetchone cur) ;;
     match result with
     | Some (batch_id :: _) => ret batch_id
     | _ =>
         raise (Exception
                  (Py.str "No unprocessed batch found for date: " ++ run_date))
     end).

(** The [try] block of [lambda_handler]. *)
Definition handler_body (start_time : datetime) (run_date : list N)
  : M response :=
  ok <- DbUtils.test_connection w ;;
  (if ok then ret tt
   else raise (Exception (Py.str "Database connection test failed"))) ;;
  raw_data <- read_from_s3 run_date ;;
  transformed <- transform_data raw_data ;;
  let '(processed, summary) := transformed in
  keys <- save_processed_to_s3 processed summary run_date ;;
  let '(processed_key, summary_key) := keys in
  batch_id <- get_extract_batch_id run_date ;;
  cdc_summary <- execute_cdc_batch_processing batch_id run_date ;;
  end_time <- utcnow w ;;
  seconds <- lift (elapsed_seconds start_time end_time) ;;
  ret {| statusCode := 200;
         response_body :=
           SuccessBody run_date batch_id (Z.of_nat (length processed))
             summary cdc_summary processed_key summary_key
             seconds (dt_iso end_time) |}.

(** The [except Exception as e] block of [lambda_handler]: the error result
    is returned. *)
Definition handler_except (start_time : datetime) (run_date : list N)
  (e : exn) : M response :=
  end_time <- utcnow w ;;
  seconds <- lift (elapsed_seconds start_time end_time) ;;
  ret {| statusCode := 500;
         response_body :=
           ErrorBody run_date (exn_msg e) (exn_type e)
             seconds (dt_iso end_time) |}.

(** [lambda_handler(event, context)] *)
Definition lambda_handler : M response :=
  start_time <- utcnow w ;;
  let run_date := dt_date start_time in
  try_except (handler_body start_time run_date)
    (handler_except start_time run_date).

End W.
End Transform.

(** ** [db_utils.py]: the connection pool and the secret cache *)
Module Pool.

(** [int(text)] in base 10: white space around, a sign, digits with single
    underscores between them.  (As for [float], the digits of other scripts
    are not tabulated, and the limit that recent interpreters put on the
    number of digits is not modelled.) *)
Definition int_from_string (s : list N) : option Z :=
  match Py.drop_underscores 0%N (map Py.to_ascii_numeric s) with
  | None => None
  | Some t =>
      let body := rev (Py.lstrip_ascii (rev (Py.lstrip_ascii t))) in
      let '(neg, r) := Py.read_sign body in
      match Py.read_digits 0 0 r with
      | (v, n, []) => if n =? 0 then None else Some (if neg then - v else v)
      | (_, _, _ :: _) => None
      end
  end.

Definition py_int (s : list N) : result Z :=
  match int_from_string s with
  | Some n => Ok n
  | None =>
      Raise (Exn "ValueError"
               (Py.str "invalid literal for int() with base 10: '" ++ s
                ++ Py.str "'"))
  end.

(** [', '.join(fields)] *)
Fixpoint join_comma (fields : list string) : list N :=
  match fields with
  | [] => []
  | [f] => Py.str f
  | f :: rest => Py.str f ++ Py.str ", " ++ join_comma rest
  end.

(** What Secrets Manager holds under a name: a text, which [json.loads]
    decodes to an object or rejects with an exception, or a binary value. *)
Inductive secret_response :=
| SecretString (secret : result (gmap string sqlval))
| SecretBinary.

(** A [SimpleConnectionPool]. *)
Record pool := { minconn : Z; maxconn : Z }.

Inductive pevent :=
| GetSecretValue (secret_id : list N)
| CreatePool (minconn maxconn : Z) (host port database user password : sqlval)
    (connect_timeout : Z) (options : list N)
| GetConn
| PutConn (conn : nat)
| CloseAll.

Record pworld := {
  (** [os.environ] *)
  pw_env : gmap string (list N);
  (** the n-th call to an outside service raises this exception *)
  pw_fault : nat -> option exn;
  (** the content of Secrets Manager *)
  pw_secret : list N -> secret_response;
  (** what [getconn] hands out at the n-th call, [None] for Python's [None] *)
  pw_getconn : nat -> option nat
}.

(** The module-level variables [connection_pool] and [secrets_cache], and
    the calls made so far. *)
Record pstate := {
  ps_calls : nat;
  ps_log : list pevent;
  connection_pool : option pool;
  secrets_cache : gmap (list N) (gmap string sqlval)
}.

Definition PM (A : Type) : Type := pstate -> result A * pstate.

Definition required_fields : list string :=
  ["host"; "port"; "dbname"; "username"; "password"].

Definition field (db_config : gmap string sqlval) (key : string) : sqlval :=
  default VNull (db_config !! key).

Section W.

Variable w : pworld.

(** One call to an outside service. *)
Definition call (ev : pevent) : PM unit :=
  fun st =>
    let st' := {| ps_calls := S (ps_calls st); ps_log := ps_log st ++ [ev];
                  connection_pool := connection_pool st;
                  secrets_cache := secrets_cache st |} in
    match pw_fault w (ps_calls st) with
    | Some e => (Raise e, st')
    | None => (Ok tt, st')
    end.

(** [get_secret(secret_name)]: its [except] prints and re-raises. *)
Definition get_secret (secret_name : list N) : PM (gmap string sqlval) :=
  fun st =>
    match secrets_cache st !! secret_name with
    | Some secret => (Ok secret, st)
    | None =>
        match call (GetSecretValue secret_name) st with
        | (Raise e, st1) => (Raise e, st1)
        | (Ok _, st1) =>
            match pw_secret w secret_name with
            | SecretString (Raise e) => (Raise e, st1)
            | SecretString (Ok secret) =>
                (Ok secret,
                 {| ps_calls := ps_calls st1; ps_log := ps_log st1;
                    connection_pool := connection_pool st1;
                    secrets_cache :=
                      <[secret_name := secret]> (secrets_cache st1) |})
            | SecretBinary =>
                (Raise (Exn "ValueError"
                          (Py.str "Secret is in binary format, expected JSON string")),
                 st1)
            end
        end
    end.

(** [int(os.environ.get(name, default))] *)
Definition env_int (name : string) (default : list N) : result Z :=
  py_int (match pw_env w !! name with Some v => v | None => default end).

(** [init_connection_pool()] *)
Definition init_connection_pool : PM pool :=
  fun st =>
    match pw_env w !! "DB_SECRET_NAME" with
    | None | Some [] =>
        (Raise (Exn "ValueError"
                  (Py.str "DB_SECRET_NAME environment variable not set")), st)
    | Some secret_name =>
        match get_secret secret_name st with
        | (Raise e, st1) => (Raise e, st1)
        | (Ok db_config, st1) =>
            let missing_fields :=
              List.filter
                (fun f => negb (bool_decide (is_Some (db_config !! f))))
                required_fields in
            match missing_fields with
            | _ :: _ =>
                (Raise (Exn "ValueError"
                          (Py.str "Missing required fields in secret: "
                           ++ join_comma missing_fields)), st1)
            | [] =>
                match env_int "DB_POOL_MIN_SIZE" (Py.str "0") with
                | Raise e => (Raise e, st1)
                | Ok min_size =>
                    match env_int "DB_POOL_MAX_SIZE" (Py.str "2") with
                    | Raise e => (Raise e, st1)
                    | Ok max_size =>
                        match call (CreatePool min_size max_size
                                      (field db_config "host")
                                      (field db_config "port")
                                      (field db_config "dbname")
                                      (field db_config "username")
                                      (field db_config "password")
                                      10
                                      (Py.str "-c statement_timeout=30000"))
                                st1 with
                        | (Raise e, st2) => (Raise e, st2)
                        | (Ok _, st2) =>
                            (Ok {| minconn := min_size; maxconn := max_size |},
                             st2)
                        end
                    end
                end
            end
        end
    end.

Definition set_pool (st : pstate) (p : option pool) : pstate :=
  {| ps_calls := ps_calls st; ps_log := ps_log st; connection_pool := p;
     secrets_cache := secrets_cache st |}.

(** [get_db_connection()]: its [except] prints and re-raises. *)
Definition get_db_connection : PM nat :=
  fun st =>
    let initialised :=
      match connection_pool st with
      | Some p => (Ok p, st)
      | None =>
          match init_connection_pool st with
          | (Ok p, st1) => (Ok p, set_pool st1 (Some p))
          | (Raise e, st1) => (Raise e, st1)
          end
      end in
    match initialised with
    | (Raise e, st1) => (Raise e, st1)
    | (Ok _, st1) =>
        match call GetConn st1 with
        | (Raise e, st2) => (Raise e, st2)
        | (Ok _, st2) =>
            match pw_getconn w (ps_calls st1) with
            | Some conn => (Ok conn, st2)
            | None =>
                (Raise (Exception
                          (Py.str "Failed to get connection from pool (pool exhausted)")),
                 st2)
            end
        end
    end.

(** [return_db_connection(conn)]: an exception of [putconn] is caught;
    without a pool or without a connection only a warning is printed. *)
Definition return_db_connection (conn : option nat) : PM unit :=
  fun st =>
    match connection_pool st, conn with
    | Some _, Some c => let '(_, st') := call (PutConn c) st in (Ok tt, st')
    | _, _ => (Ok tt, st)
    end.

(** [close_all_connections()]: the pool is forgotten only when [closeall]
    went through. *)
Definition close_all_connections : PM unit :=
  fun st =>
    match connection_pool st with
    | Some _ =>
        match call CloseAll st with
        | (Ok _, st') => (Ok tt, set_pool st' None)
        | (Raise _, st') => (Ok tt, st')
        end
    | None => (Ok tt, st)
    end.

End W.

(** [get_connection_stats()] *)
Definition get_connection_stats (st : pstate) : gmap string sqlval :=
  match connection_pool st with
  | None =>
      <["min_size" := VInt 0]>
        (<["max_size" := VInt 0]>
           (<["available" := VInt 0]>
              (<["in_use" := VInt 0]>
                 (<["status" := VText (Py.str "not_initialized")]> ∅))))
  | Some p =>
      <["min_size" := VInt (minconn p)]>
        (<["max_size" := VInt (maxconn p)]>
           (<["status" := VText (Py.str "initialized")]> ∅))
  end.

End Pool.

(** * The vocabulary of the statements, and the data of the examples *)

Definition make_book (title price availability : list N) : book :=
  <["title" := title]>
    (<["price" := price]> (<["availability" := availability]> ∅)).

Definition book_A : book :=
  make_book (Py.str "A") (Py.pound :: Py.str "10.00")
    (Py.str "In stock (3 available)").

Definition book_B : book :=
  make_book (Py.str "B") (Py.pound :: Py.str "5.00") (Py.str "Out of stock").

(** A record as [scrape_books] builds it: the three keys are present. *)
Definition scraped (b : book) : Prop :=
  is_Some (b !! "title") ∧ is_Some (b !! "price")
  ∧ is_Some (b !! "availability").

(** The price of the record does not parse. *)
Definition price_fails (b : book) : bool :=
  negb (is_ok (rbind (subscript b "price") Extract.parse_price)).

(** The record is one that [transform_data] counts in stock: its price is
    extracted and its availability contains ["In stock"]. *)
Definition counts_in_stock (b : book) : bool :=
  match rbind (subscript b "price") Transform.extract_price,
        subscript b "availability" with
  | Ok _, Ok availability => Py.contains (Py.str "In stock") availability
  | _, _ => false
  end.

(** A finite value below [2 ^ B], or a zero. *)
Definition magnitude_le (x : spec_float) (B : Z) : Prop :=
  match x with
  | S754_zero _ => True
  | S754_finite _ m e => Zdigits2 (Zpos m) + e <= B
  | _ => False
  end.

(** The range of Python's [datetime], in microseconds from the epoch:
    0001-01-01 to 9999-12-31. *)
Definition datetime_in_range (d : datetime) : Prop :=
  -62135596800000000 <= dt_micros d <= 253402300799999999.

Definition clock_in_range (w : world) : Prop :=
  ∀ n, datetime_in_range (w_clock w n).

Definition raw_key (run_date : list N) : list N :=
  Py.str "raw/books/date=" ++ run_date ++ Py.str "/books.json".

(** The error of the read-raw stage for an absent object (the
    specification's MissingUpstreamError). *)
Definition missing_upstream (run_date : list N) : exn :=
  Exception (Py.str "Raw data file not found: " ++ raw_key run_date).

(** The error of an empty scrape (the specification's EmptyResultError). *)
Definition empty_result : exn :=
  Exception (Py.str "No books scraped - possible website structure change").

(** 2026-02-03 08:05:12 UTC. *)
Definition morning : datetime :=
  {| dt_date := Py.str "2026-02-03";
     dt_stamp := Py.str "2026-02-03_080512";
     dt_iso := Py.str "2026-02-03T08:05:12";
     dt_micros := 1770105912000000 |}.

(** Every service answers; the page and the bucket are empty; the
    procedure returns no row. *)
Definition quiet_world : world :=
  {| w_clock := fun _ => morning;
     w_fault := fun _ => None;
     w_page := [];
     w_raw := fun _ => None;
     w_cdc := fun _ table => ([], table);
     w_db_now := fun n => Z.of_nat n |}.

(** The procedure returns the row (1, 2, 3, 4, 5). *)
Definition cdc_world : world :=
  {| w_clock := fun _ => morning;
     w_fault := fun _ => None;
     w_page := [];
     w_raw := fun _ => None;
     w_cdc := fun _ table => ([[VInt 1; VInt 2; VInt 3; VInt 4; VInt 5]], table);
     w_db_now := fun n => Z.of_nat n |}.

Definition connection_refused : exn :=
  Exn "OperationalError" (Py.str "connection refused").

(** No service answers. *)
Definition dead_world : world :=
  {| w_clock := fun _ => morning;
     w_fault := fun _ => Some connection_refused;
     w_page := [];
     w_raw := fun _ => None;
     w_cdc := fun _ table => ([], table);
     w_db_now := fun n => Z.of_nat n |}.

Definition access_denied : exn :=
  Exn "ClientError"
    (Py.str "An error occurred (AccessDenied) when calling the GetObject operation: Access Denied").

(** The object store refuses the first call. *)
Definition denied_world : world :=
  {| w_clock := fun _ => morning;
     w_fault := fun n => match n with O => Some access_denied | _ => None end;
     w_page := [];
     w_raw := fun _ => None;
     w_cdc := fun _ table => ([], table);
     w_db_now := fun n => Z.of_nat n |}.

Definition run_day : list N := Py.str "2026-02-03".
Definition morning_batch : list N := Py.str "extract_2026-02-03_080512".

(** A book whose price is not a number, and one whose availability is
    written in lower case. *)
Definition book_bad_price : book :=
  make_book (Py.str "C") (Py.pound :: Py.str "n/a") (Py.str "In stock").
Definition book_lower_case : book :=
  make_book (Py.str "D") (Py.pound :: Py.str "3.00") (Py.str "in stock").

(** A staged, unprocessed row of the run day. *)
Definition staged_row (created_at : Z) (batch : list N) : staging_row :=
  {| sr_title := Py.str "A";
     sr_price_gbp := Py.literal 1000 (-2);
     sr_availability := Py.str "In stock (3 available)";
     sr_is_in_stock := true;
     sr_scraped_date := run_day;
     sr_batch_id := batch;
     sr_processed := false;
     sr_created_at := created_at |}.

(** The statement of [get_extract_batch_id] without its [DISTINCT]. *)
Definition batch_id_query_plain : select_stmt :=
  {| sel_distinct := false;
     sel_columns := sel_columns Transform.batch_id_query;
     sel_where := sel_where Transform.batch_id_query;
     sel_order_by := sel_order_by Transform.batch_id_query;
     sel_limit := sel_limit Transform.batch_id_query |}.

Definition connection_test_failed : exn :=
  Exception (Py.str "Database connection test failed").

(** ** The vocabulary of the further properties *)

(** A statement sent on a connection, or the end of its transaction. *)
Definition is_db_statement (ev : event) : Prop :=
  match ev with
  | DbExecute _ _ | DbExecuteMany _ _ | DbCommit | DbRollback => True
  | _ => False
  end.

(** The computation only adds calls of one kind to the log. *)
Definition logs {A} (P : event -> Prop) (m : M A) : Prop :=
  ∀ st, ∃ l, st_log (snd (m st)) = st_log st ++ l ∧ Forall P l.

(** The computation takes one connection and gives it back: when the
    acquisition fails that failure is the outcome and nothing else is
    called; otherwise the log is the acquisition, statements, and the
    release. *)
Definition uses_one_connection {A} (w : world) (m : M A) : Prop :=
  ∀ st,
    match w_fault w (st_calls st) with
    | Some e =>
        m st = (Raise e,
                set_log st (S (st_calls st)) (st_log st ++ [PoolGetConn]))
    | None =>
        ∃ middle,
          st_log (snd (m st))
          = st_log st ++ [PoolGetConn] ++ middle ++ [PoolPutConn]
          ∧ Forall is_db_statement middle
    end.

(** Nothing outside the process was touched between two states. *)
Definition same_outside (st st' : state) : Prop :=
  st_calls st' = st_calls st ∧ st_log st' = st_log st
  ∧ st_db st' = st_db st ∧ st_tx st' = st_tx st.

(** The staging row that the Collector's insert makes of a record, if it
    makes one. *)
Definition row_of_book (now : Z) (run_date batch_id : list N) (b : book)
  : option staging_row :=
  match b !! "title", b !! "price", b !! "availability" with
  | Some title, Some price, Some availability =>
      match Extract.parse_price price with
      | Ok price_gbp =>
          Some {| sr_title := title;
                  sr_price_gbp := price_gbp;
                  sr_availability := availability;
                  sr_is_in_stock :=
                    Py.contains (Py.str "In stock") availability;
                  sr_scraped_date := run_date;
                  sr_batch_id := batch_id;
                  sr_processed := false;
                  sr_created_at := now |}
      | Raise _ => None
      end
  | _, _, _ => None
  end.

(** A processed record of a book in stock. *)
Definition in_stock_record (r : processed_book) : Prop :=
  pb_in_stock r = true
  ∧ Py.contains (Py.str "In stock") (pb_availability r) = true.

Definition processed_key (run_date : list N) : list N :=
  Py.str "processed/books/date=" ++ run_date ++ Py.str "/books.json".

Definition summary_key (run_date : list N) : list N :=
  Py.str "processed/summary/date=" ++ run_date ++ Py.str "/summary.json".

(** The call of the stored procedure [process_cdc_batch]. *)
Definition is_cdc_call (ev : event) : Prop :=
  match ev with
  | DbExecute CallProcessCdcBatch _ => True
  | _ => False
  end.

(** The computation raises from every state. *)
Definition never_returns {A} (m : M A) : Prop :=
  ∀ st, ∃ e st', m st = (Raise e, st').

(** A call of [init_connection_pool] that the configuration accounts for:
    the secret asked for is the one [DB_SECRET_NAME] names, and a pool is
    created from the five fields of that secret as the cache holds it, with
    the sizes of the environment and the two time limits of the source. *)
Definition configured_call (w : Pool.pworld) (st : Pool.pstate)
  (ev : Pool.pevent) : Prop :=
  match ev with
  | Pool.GetSecretValue secret_id =>
      Pool.pw_env w !! "DB_SECRET_NAME" = Some secret_id ∧ secret_id ≠ []
  | Pool.CreatePool min_size max_size host port database user password
      connect_timeout options =>
      ∃ secret_name db_config,
        Pool.pw_env w !! "DB_SECRET_NAME" = Some secret_name
        ∧ Pool.secrets_cache st !! secret_name = Some db_config
        ∧ db_config !! "host" = Some host
        ∧ db_config !! "port" = Some port
        ∧ db_config !! "dbname" = Some database
        ∧ db_config !! "username" = Some user
        ∧ db_config !! "password" = Some password
        ∧ Pool.env_int w "DB_POOL_MIN_SIZE" (Py.str "0") = Ok min_size
        ∧ Pool.env_int w "DB_POOL_MAX_SIZE" (Py.str "2") = Ok max_size
        ∧ connect_timeout = 10
        ∧ options = Py.str "-c statement_timeout=30000"
  | _ => False
  end.

(** What [getconn] gives at the call numbered [n]: the failure of the call,
    the connection, or the exception of [get_db_connection] for [None]. *)
Definition getconn_outcome (w : Pool.pworld) (n : nat) : result nat :=
  match Pool.pw_fault w n, Pool.pw_getconn w n with
  | Some e, _ => Raise e
  | None, Some conn => Ok conn
  | None, None =>
      Raise (Exception
               (Py.str "Failed to get connection from pool (pool exhausted)"))
  end.

Definition after_getconn (st : Pool.pstate) : Pool.pstate :=
  {| Pool.ps_calls := S (Pool.ps_calls st);
     Pool.ps_log := Pool.ps_log st ++ [Pool.GetConn];
     Pool.connection_pool := Pool.connection_pool st;
     Pool.secrets_cache := Pool.secrets_cache st |}.

(** The fields of the state that a call to the outside changes. *)
Ltac simpl_state :=
  cbn [set_tables set_log tick st_ticks st_calls st_log st_db st_tx].

(** *** The data of the further examples *)

(** A record in stock that lost its title. *)
Definition book_untitled : book :=
  <["price" := Py.pound :: Py.str "4.00"]>
    (<["availability" := Py.str "In stock"]> ∅).

Definition no_totals : Transform.totals :=
  {| Transform.processed := [];
     Transform.total_value_gbp := Py.PInt 0;
     Transform.in_stock_count := 0;
     Transform.out_of_stock_count := 0 |}.

Definition put_denied : exn :=
  Exn "ClientError"
    (Py.str "An error occurred (AccessDenied) when calling the PutObject operation: Access Denied").

Definition deadlock_detected : exn :=
  Exn "DeadlockDetected" (Py.str "deadlock detected").

(** The page shows three books, the bucket holds two raw records under
    every key, and the call numbered [n] fails with [e]. *)
Definition shop_world (failure : option (nat * exn)) : world :=
  {| w_clock := fun _ => morning;
     w_fault := fun n =>
       match failure with
       | Some (k, e) => if Nat.eqb n k then Some e else None
       | None => None
       end;
     w_page := [book_A; book_bad_price; book_B];
     w_raw := fun _ => Some [book_A; book_B];
     w_cdc := fun _ table => ([], table);
     w_db_now := fun n => Z.of_nat n |}.

Definition db_secret : gmap string sqlval :=
  <["host" := VText (Py.str "db.internal")]>
    (<["port" := VInt 5432]>
       (<["dbname" := VText (Py.str "books_etl")]>
          (<["username" := VText (Py.str "etl_admin")]>
             (<["password" := VText (Py.str "s3cret")]> ∅)))).

(** The secret is named and complete; the largest size of the pool is
    written with blanks around it and the smallest is left to its default. *)
Definition pool_world : Pool.pworld :=
  {| Pool.pw_env :=
       <["DB_SECRET_NAME" := Py.str "books/db"]>
         (<["DB_POOL_MAX_SIZE" := Py.str " 5 "]> ∅);
     Pool.pw_fault := fun _ => None;
     Pool.pw_secret := fun _ => Pool.SecretString (Ok db_secret);
     Pool.pw_getconn := fun n => Some n |}.

(** Nothing is configured and nothing answers. *)
Definition bare_pool_world : Pool.pworld :=
  {| Pool.pw_env := ∅;
     Pool.pw_fault := fun _ => Some connection_refused;
     Pool.pw_secret := fun _ => Pool.SecretBinary;
     Pool.pw_getconn := fun _ => None |}.

(** A cold start: no pool yet and an empty cache. *)
Definition cold_pstate : Pool.pstate :=
  {| Pool.ps_calls := 0;
     Pool.ps_log := [];
     Pool.connection_pool := None;
     Pool.secrets_cache := ∅ |}.

(** * Properties of the two jobs *)

(** ** The scenario of the specification *)

(** C1: on the raw list [A (£10.00, in stock); B (£5.00, out of stock)]
    [transform_data] returns one processed record, for A, with prices 10.00,
    12.70 and 11.70 (the products by 1.27 and 1.17 rounded to two decimals),
    and a summary that counts 2 raw books, 1 in stock, 1 out of stock and a
    total value of 10.00: B is dropped from the list and counted in the
    summary.  The time stamps are the readings of the clock, whatever they
    are. *)
Theorem transform_scenario_A_B (w : world) (st : state) :
  fst (Transform.transform_data w [book_A; book_B] st) =
  Ok ([ {| pb_title := Py.str "A";
           pb_price_gbp := Py.PFloat (Py.literal 1000 (-2));
           pb_price_usd := Py.PFloat (Py.literal 1270 (-2));
           pb_price_eur := Py.PFloat (Py.literal 1170 (-2));
           pb_in_stock := true;
           pb_availability := Py.str "In stock (3 available)";
           pb_processed_at := dt_iso (w_clock w (st_ticks st)) |} ],
      {| sm_date := dt_date (w_clock w (S (st_ticks st)));
         sm_total_books_raw := 2;
         sm_books_in_stock := 1;
         sm_books_out_of_stock := 1;
         sm_total_inventory_value_gbp := Py.PFloat (Py.literal 1000 (-2));
         sm_total_inventory_value_usd := Py.PFloat (Py.literal 1270 (-2));
         sm_average_price_gbp := Py.PFloat (Py.literal 1000 (-2));
         sm_processed_at := dt_iso (w_clock w (S (S (st_ticks st)))) |})
  ∧ Transform.usd_rate = Py.literal 127 (-2)
  ∧ Transform.eur_rate = Py.literal 117 (-2)
  ∧ rbind (Py.mul (Py.PFloat (Py.literal 1000 (-2)))
             (Py.PFloat Transform.usd_rate)) (λ v, Py.round v 2)
    = Ok (Py.PFloat (Py.literal 1270 (-2)))
  ∧ rbind (Py.mul (Py.PFloat (Py.literal 1000 (-2)))
             (Py.PFloat Transform.eur_rate)) (λ v, Py.round v 2)
    = Ok (Py.PFloat (Py.literal 1170 (-2))).
Proof. repeat split; vm_compute; reflexivity. Qed.

(** The conversion at 20.00: 25.40 and 23.40. *)
Lemma conversion_of_20_00 :
  Transform.processed_fields book_A (Py.literal 2000 (-2))
  = Ok (Py.str "A", Py.PFloat (Py.literal 2000 (-2)),
        Py.PFloat (Py.literal 2540 (-2)), Py.PFloat (Py.literal 2340 (-2)),
        Py.str "In stock (3 available)").
Proof. vm_compute. reflexivity. Qed.

(** ** Text: replacing a symbol that occurs at the head only *)

Lemma starts_with_head_absent (c d : N) (old s : list N) :
  c ≠ d → Py.starts_with (c :: old) (d :: s) = false.
Proof.
  intros Hne. simpl.
  destruct (N.eqb_spec c d) as [->|_]; [congruence|reflexivity].
Qed.

(** Nothing is replaced in a text that does not contain the first code
    point of [old]. *)
Lemma replace_from_absent (c : N) (old new s : list N) :
  c ∉ s → Py.replace_from (c :: old) new 0 s = s.
Proof.
  induction s as [|d s IH]; intros Hnotin; [reflexivity|].
  apply not_elem_of_cons in Hnotin as [Hne Hs].
  cbn [Py.replace_from].
  rewrite starts_with_head_absent by congruence.
  now rewrite IH.
Qed.

Lemma replace_absent (c : N) (old new s : list N) :
  c ∉ s → Py.replace (c :: old) new s = s.
Proof. apply replace_from_absent. Qed.

(** A one-point symbol at the head is removed. *)
Lemma replace_single_head (c : N) (s : list N) :
  c ∉ s → Py.replace [c] [] (c :: s) = s.
Proof.
  intros Hs. unfold Py.replace. cbn [Py.replace_from Py.starts_with length].
  rewrite N.eqb_refl. cbn. now apply replace_from_absent.
Qed.

(** A one-point symbol is removed behind another code point. *)
Lemma replace_single_second (c d : N) (s : list N) :
  c ≠ d → c ∉ s → Py.replace [c] [] (d :: c :: s) = d :: s.
Proof.
  intros Hne Hs. unfold Py.replace. cbn [Py.replace_from].
  rewrite starts_with_head_absent by assumption.
  f_equal. now apply (replace_single_head c s).
Qed.

(** A two-point symbol at the head is removed. *)
Lemma replace_pair_head (c d : N) (s : list N) :
  c ∉ s → Py.replace [c; d] [] (c :: d :: s) = s.
Proof.
  intros Hs. unfold Py.replace.
  cbn [Py.replace_from Py.starts_with length].
  rewrite !N.eqb_refl. cbn. now apply replace_from_absent.
Qed.

(** The two jobs do not clean a price the same way: the Collector removes
    every U+00A3 and every U+00C2, the Reconciler removes the pair U+00C2
    U+00A3 and then every U+00A3.  They differ on a lone U+00C2. *)
Lemma lone_circumflex_differs :
  Extract.parse_price (Py.a_circumflex :: Py.str "51.77")
  = Ok (Py.literal 5177 (-2))
  ∧ is_ok (Transform.extract_price (Py.a_circumflex :: Py.str "51.77"))
    = false.
Proof. split; vm_compute; reflexivity. Qed.

(** C2: for a catalog price made of the currency symbol, correct (U+00A3) or
    mis-encoded (U+00C2 U+00A3), followed by a text [s] that contains neither
    code point, the Collector's [parse_price] and the Reconciler's price
    extraction all yield [float(s.strip())]; for [s = "51.77"] that value is
    the double 51.77. *)
Theorem price_symbol_is_stripped (s : list N) :
  Py.pound ∉ s → Py.a_circumflex ∉ s →
  let value := Py.py_float (Py.strip s) in
  (Extract.parse_price (Py.pound :: s) = value
   ∧ Extract.parse_price (Py.a_circumflex :: Py.pound :: s) = value
   ∧ Transform.extract_price (Py.pound :: s) = value
   ∧ Transform.extract_price (Py.a_circumflex :: Py.pound :: s) = value)
  ∧ Py.py_float (Py.strip (Py.str "51.77")) = Ok (Py.literal 5177 (-2)).
Proof.
  intros Hp Ha value. split; [|vm_compute; reflexivity].
  assert (Hne : Py.pound ≠ Py.a_circumflex) by discriminate.
  unfold Extract.parse_price, Transform.extract_price, value.
  repeat split.
  - rewrite replace_single_head by assumption.
    now rewrite replace_absent by assumption.
  - rewrite replace_single_second by assumption.
    now rewrite replace_single_head by assumption.
  - rewrite (replace_absent Py.a_circumflex)
      by (apply not_elem_of_cons; split; [congruence|assumption]).
    now rewrite replace_single_head by assumption.
  - rewrite replace_pair_head by assumption.
    now rewrite replace_absent by assumption.
Qed.

(** ** The Collector's staging insert *)

Lemma staging_tuple_scraped (b : book) (run_date batch_id : list N) :
  scraped b →
  is_ok (Extract.staging_tuple b run_date batch_id) = negb (price_fails b).
Proof.
  intros ([t Ht] & [p Hp] & [a Ha]).
  unfold Extract.staging_tuple, price_fails, subscript.
  rewrite Ht, Hp, Ha. cbn.
  destruct (Extract.parse_price p); reflexivity.
Qed.

Lemma batch_data_length (books : list book) (run_date batch_id : list N) :
  Forall scraped books →
  length (Extract.batch_data books run_date batch_id)
  = (length books - length (List.filter price_fails books))%nat.
Proof.
  induction 1 as [|b books Hb _ IH]; [reflexivity|].
  cbn [Extract.batch_data List.filter length].
  pose proof (staging_tuple_scraped b run_date batch_id Hb) as Hok.
  pose proof (List.filter_length_le price_fails books) as Hle.
  destruct (Extract.staging_tuple b run_date batch_id), (price_fails b);
    try discriminate; cbn [length]; lia.
Qed.

(** Every tuple of [batch_data] has the six columns of the [INSERT]. *)
Lemma staging_tuple_shape (b : book) (run_date batch_id : list N)
  (t : list sqlval) (now : Z) :
  Extract.staging_tuple b run_date batch_id = Ok t →
  is_ok (Pg.insert_row now t) = true.
Proof.
  unfold Extract.staging_tuple, subscript.
  destruct (b !! "price") as [p|]; [|discriminate]. cbn [rbind].
  destruct (Extract.parse_price p) as [x|]; [|discriminate]. cbn [rbind].
  destruct (b !! "availability") as [a|]; [|discriminate]. cbn [rbind].
  destruct (b !! "title") as [ti|]; [|discriminate]. cbn [rbind].
  intros [= <-]. reflexivity.
Qed.

Lemma insert_rows_batch_data (books : list book) (run_date batch_id : list N)
  (now : Z) :
  ∃ rows,
    Pg.insert_rows now (Extract.batch_data books run_date batch_id) = Ok rows
    ∧ length rows = length (Extract.batch_data books run_date batch_id).
Proof.
  induction books as [|b books (rows & Hrows & Hlen)]; [by exists []|].
  cbn [Extract.batch_data].
  destruct (Extract.staging_tuple b run_date batch_id) as [t|] eqn:Ht;
    [|by exists rows].
  pose proof (staging_tuple_shape _ _ _ _ now Ht) as Hshape.
  cbn [Pg.insert_rows]. rewrite Hrows.
  destruct (Pg.insert_row now t) as [r|]; [|discriminate].
  exists (r :: rows). cbn. by rewrite Hlen.
Qed.

(** C3: when the database answers, [save_to_rds] returns the number of
    scraped records minus the number of those whose price does not parse,
    and commits that many new rows; the records that fail are skipped and
    the insert still goes through. *)
Theorem staging_insert_count (w : world) (books : list book)
  (run_date s3_key batch_id : list N) (st : state) :
  (∀ n, w_fault w n = None) →
  Forall scraped books →
  let inserted :=
    (length books - length (List.filter price_fails books))%nat in
  ∃ st' rows,
    Extract.save_to_rds w books run_date s3_key batch_id st
    = (Ok (Z.of_nat inserted), st')
    ∧ st_db st' = st_tx st ++ rows
    ∧ length rows = inserted.
Proof.
  intros Hfault Hscraped inserted.
  destruct (insert_rows_batch_data books run_date batch_id
              (w_db_now w (S (S (st_calls st))))) as (rows & Hrows & Hlen).
  unfold Extract.save_to_rds, DbUtils.with_connection,
    DbUtils.get_db_connection, DbUtils.return_db_connection,
    try_finally, try_except, Pg.executemany, Pg.commit, bind, step, ret,
    outside.
  repeat (progress (cbn; rewrite ?Hfault, ?Hrows)).
  eexists _, rows. split; [|split].
  - unfold inserted.
    now rewrite <- (batch_data_length books run_date batch_id).
  - reflexivity.
  - unfold inserted.
    rewrite <- (batch_data_length books run_date batch_id) by assumption.
    exact Hlen.
Qed.

(** ** The Reconciler's transform *)

(** A turn of the loop on a record that is not counted in stock changes
    neither the list, nor the total, nor the in-stock counter, nor the
    clock. *)
Lemma transform_book_not_in_stock (w : world) (b : book)
  (acc : Transform.totals) (st : state) :
  counts_in_stock b = false →
  ∃ acc',
    Transform.transform_book w b acc st = (Ok acc', st)
    ∧ Transform.processed acc' = Transform.processed acc
    ∧ Transform.total_value_gbp acc' = Transform.total_value_gbp acc
    ∧ Transform.in_stock_count acc' = Transform.in_stock_count acc.
Proof.
  unfold counts_in_stock, Transform.transform_book.
  destruct (rbind (subscript b "price") Transform.extract_price) as [p|];
    [|by exists acc].
  destruct (subscript b "availability") as [a|]; [|by exists acc].
  intros ->. by eexists.
Qed.

Lemma transform_loop_not_in_stock (w : world) (raw_data : list book) :
  Forall (λ b, counts_in_stock b = false) raw_data →
  ∀ (acc : Transform.totals) (st : state),
  ∃ acc',
    Transform.transform_loop w raw_data acc st = (Ok acc', st)
    ∧ Transform.processed acc' = Transform.processed acc
    ∧ Transform.total_value_gbp acc' = Transform.total_value_gbp acc
    ∧ Transform.in_stock_count acc' = Transform.in_stock_count acc.
Proof.
  induction 1 as [|b raw_data Hb _ IH]; intros acc st; [by exists acc|].
  destruct (transform_book_not_in_stock w b acc st Hb)
    as (acc1 & Hstep & Hp1 & Ht1 & Hi1).
  destruct (IH acc1 st) as (acc2 & Hloop & Hp2 & Ht2 & Hi2).
  exists acc2. cbn [Transform.transform_loop]. unfold bind at 1.
  rewrite Hstep, Hloop. repeat split; congruence.
Qed.

(** C4: when no record of the raw input is counted in stock,
    [transform_data] returns (it does not raise), the summary counts 0 books
    in stock and its average price is the integer 0. *)
Theorem average_is_zero_without_stock (w : world) (raw_data : list book)
  (st : state) :
  Forall (λ b, counts_in_stock b = false) raw_data →
  ∃ processed summary st',
    Transform.transform_data w raw_data st = (Ok (processed, summary), st')
    ∧ sm_books_in_stock summary = 0
    ∧ sm_average_price_gbp summary = Py.PInt 0.
Proof.
  intros Hnone.
  destruct (transform_loop_not_in_stock w raw_data Hnone
              {| Transform.processed := [];
                 Transform.total_value_gbp := Py.PInt 0;
                 Transform.in_stock_count := 0;
                 Transform.out_of_stock_count := 0 |} st)
    as ([procd total ins outs] & Hloop & Hp & Ht & Hi).
  cbn in Hp, Ht, Hi. subst procd total ins.
  unfold Transform.transform_data. unfold bind at 1. rewrite Hloop.
  vm_compute. eexists _, _, _. repeat split.
Qed.

(** C10: for a record that the Collector stages and whose price the
    Reconciler extracts, the flag written to the staging row is the result
    of the test ['In stock' in availability], and the Reconciler's loop
    counts the record in stock exactly when that flag is true, out of stock
    otherwise; the test is case-sensitive, so a lower-case ["in stock"] is
    out of stock for both. *)
Theorem in_stock_flag_agrees (w : world) (b : book)
  (run_date batch_id : list N) (row : list sqlval) (price : spec_float)
  (acc : Transform.totals) (st : state) :
  Extract.staging_tuple b run_date batch_id = Ok row →
  rbind (subscript b "price") Transform.extract_price = Ok price →
  ∃ availability acc' st',
    b !! "availability" = Some availability
    ∧ let flag := Py.contains (Py.str "In stock") availability in
      row !! 3%nat = Some (VBool flag)
      ∧ Transform.transform_book w b acc st = (Ok acc', st')
      ∧ Transform.in_stock_count acc'
        = Transform.in_stock_count acc + (if flag then 1 else 0)
      ∧ Transform.out_of_stock_count acc'
        = Transform.out_of_stock_count acc + (if flag then 0 else 1)
      ∧ Py.contains (Py.str "In stock") (Py.str "in stock") = false.
Proof.
  intros Hrow Hprice.
  unfold Extract.staging_tuple in Hrow.
  unfold Transform.transform_book. rewrite Hprice.
  unfold subscript in *.
  destruct (b !! "price") as [p|]; [|discriminate]. cbn [rbind] in Hrow.
  destruct (Extract.parse_price p) as [x|]; [|discriminate].
  cbn [rbind] in Hrow.
  destruct (b !! "availability") as [a|]; [|discriminate].
  cbn [rbind] in Hrow.
  destruct (b !! "title") as [t|]; [|discriminate].
  cbn [rbind] in Hrow. injection Hrow as <-.
  exists a.
  destruct (Py.contains (Py.str "In stock") a) eqn:Hflag.
  - destruct (Py.add (Transform.total_value_gbp acc) (Py.PFloat price));
      [destruct (Transform.processed_fields _ price)
         as [[[[[ti gbp] usd] eur] av]|]|];
      eexists _, _; (split; [reflexivity|]); cbn;
      repeat split; try reflexivity; cbn; lia.
  - eexists _, _. split; [reflexivity|]. cbn.
    repeat split; try reflexivity; cbn; lia.
Qed.

(** ** Floats: the rounding of a bounded quotient is finite *)

Lemma digits2_pos_size (p : positive) : digits2_pos p = Pos.size p.
Proof. induction p; cbn; congruence. Qed.

(** [Zdigits2 m <= k] says that [m] fits in [k] bits. *)
Lemma Zdigits2_le_iff (m k : Z) :
  0 <= m → 0 <= k → (Zdigits2 m <= k ↔ m < 2 ^ k).
Proof.
  intros Hm Hk. destruct m as [|p|p]; [| |lia].
  - cbn. split; [intros _; apply Z.pow_pos_nonneg; lia|lia].
  - rewrite (Z.log2_lt_pow2 (Zpos p) k) by lia.
    cbn [Zdigits2]. rewrite digits2_pos_size.
    destruct p; cbn [Z.log2 Pos.size]; lia.
Qed.

Lemma shr_m_of_loc (m : Z) (l : location) :
  shr_m (shr_record_of_loc m l) = m.
Proof. destruct l as [|[]]; reflexivity. Qed.

Lemma shr_1_half (r : shr_record) :
  0 <= shr_m r → shr_m (shr_1 r) = shr_m r / 2.
Proof.
  destruct r as [m rb sb]. cbn [shr_m]. intros Hm.
  destruct m as [|[p|p|]|p]; cbn [shr_1 shr_m]; try lia.
  all: Z.div_mod_to_equations; lia.
Qed.

Lemma pow2_double (k : Z) : 0 <= k → 2 ^ (2 * k) = 2 ^ k * 2 ^ k.
Proof.
  intros Hk. rewrite <- Z.pow_add_r by lia. f_equal. lia.
Qed.

Lemma pow2_double_succ (k : Z) :
  0 <= k → 2 ^ (2 * k + 1) = 2 * (2 ^ k * 2 ^ k).
Proof.
  intros Hk. rewrite Z.pow_add_r, pow2_double by lia. lia.
Qed.

Lemma shr_m_iter (p : positive) :
  ∀ r : shr_record,
    0 <= shr_m r
    → shr_m (SpecFloat.iter_pos shr_1 p r) = shr_m r / 2 ^ Zpos p.
Proof.
  assert (Hdiv : ∀ a b c, 0 < b → 0 < c → a / b / c = a / (b * c)).
  { intros. rewrite Z.div_div; lia. }
  assert (Hpow : ∀ q : positive, 0 < 2 ^ Zpos q).
  { intros. apply Z.pow_pos_nonneg; lia. }
  induction p as [p IH|p IH|]; intros r Hr; cbn [SpecFloat.iter_pos].
  - assert (H1 : 0 <= shr_m (shr_1 r)).
    { rewrite shr_1_half by lia. apply Z.div_pos; lia. }
    assert (H2 : 0 <= shr_m (SpecFloat.iter_pos shr_1 p (shr_1 r))).
    { rewrite IH by lia. apply Z.div_pos; [lia|apply Hpow]. }
    rewrite IH, IH, shr_1_half by lia.
    rewrite !Hdiv by (try apply Hpow; lia).
    rewrite (Pos2Z.inj_xI p), pow2_double_succ by lia. reflexivity.
  - assert (H2 : 0 <= shr_m (SpecFloat.iter_pos shr_1 p r)).
    { rewrite IH by lia. apply Z.div_pos; [lia|apply Hpow]. }
    rewrite IH, IH by lia.
    rewrite !Hdiv by (try apply Hpow; lia).
    rewrite (Pos2Z.inj_xO p), pow2_double by lia. reflexivity.
  - now rewrite shr_1_half by lia.
Qed.

(** What [shr_fexp] leaves: a non-negative significand that still fits. *)
Lemma shr_fexp_bound (m e B : Z) (l : location) :
  0 <= m → Zdigits2 m + e <= B → -1074 <= B →
  ∃ mrs e',
    shr_fexp 53 1024 m e l = (mrs, e')
    ∧ 0 <= shr_m mrs
    ∧ Zdigits2 (shr_m mrs) + e' <= B
    ∧ e' <= Z.max e (Z.max (B - 53) (-1074)).
Proof.
  intros Hm HB Hmin. unfold shr_fexp, shr, fexp, emin.
  set (D := Zdigits2 m) in *.
  replace (3 - 1024 - 53) with (-1074) by reflexivity.
  destruct (Z.max (D + e - 53) (-1074) - e) as [|n|n] eqn:Hn.
  - eexists _, _. split; [reflexivity|].
    rewrite shr_m_of_loc. fold D. lia.
  - eexists _, _. split; [reflexivity|].
    rewrite shr_m_iter by (rewrite shr_m_of_loc; lia).
    rewrite shr_m_of_loc.
    assert (Hpos : 0 < 2 ^ Zpos n) by (apply Z.pow_pos_nonneg; lia).
    split; [apply Z.div_pos; lia|]. split; [|lia].
    assert (Hk : 0 <= B - (e + Zpos n)) by lia.
    assert (Hfit : Zdigits2 (m / 2 ^ Zpos n) <= B - (e + Zpos n)); [|lia].
    apply Zdigits2_le_iff; [apply Z.div_pos; lia|lia|].
    apply Z.div_lt_upper_bound; [lia|].
    rewrite <- Z.pow_add_r by lia.
    replace (Zpos n + (B - (e + Zpos n))) with (B - e) by lia.
    apply Zdigits2_le_iff; [lia| |fold D; lia].
    assert (0 <= D) by (unfold D; destruct m; cbn; lia). lia.
  - eexists _, _. split; [reflexivity|].
    rewrite shr_m_of_loc. fold D. lia.
Qed.

Lemma round_nearest_even_bound (m : Z) (l : location) :
  m <= round_nearest_even m l <= m + 1.
Proof.
  destruct l as [|[]]; cbn; try lia. destruct (Z.even m); lia.
Qed.

Lemma magnitude_le_finite (x : spec_float) (B : Z) :
  magnitude_le x B → Py.is_finite x = true.
Proof. destruct x; cbn; tauto. Qed.

Lemma Zdigits2_succ (m k : Z) :
  0 <= m → 0 <= k → Zdigits2 m <= k → Zdigits2 (m + 1) <= k + 1.
Proof.
  intros Hm Hk H. apply Zdigits2_le_iff in H; [|lia|lia].
  apply Zdigits2_le_iff; [lia|lia|].
  rewrite Z.pow_add_r by lia. lia.
Qed.

Lemma Zdigits2_mono (a b : Z) :
  0 <= a <= b → Zdigits2 a <= Zdigits2 b.
Proof.
  intros H.
  assert (0 <= Zdigits2 b) by (destruct b; cbn; lia).
  apply Zdigits2_le_iff; [lia|lia|].
  assert (Hb : b < 2 ^ Zdigits2 b) by (apply Zdigits2_le_iff; lia). lia.
Qed.

Lemma binary_round_aux_bound (s : bool) (mx ex B : Z) (l : location) :
  0 <= mx → Zdigits2 mx + ex <= B → -1074 <= B <= 900 → ex <= 900 →
  magnitude_le (binary_round_aux 53 1024 s mx ex l) (B + 1).
Proof.
  intros Hmx HB HBr Hex. unfold binary_round_aux.
  destruct (shr_fexp_bound mx ex B l) as (r1 & e1 & -> & Hm1 & Hd1 & He1);
    [lia..|].
  set (m2 := round_nearest_even (shr_m r1) (loc_of_shr_record r1)).
  pose proof (round_nearest_even_bound (shr_m r1) (loc_of_shr_record r1))
    as Hm2. fold m2 in Hm2.
  assert (Hd2 : Zdigits2 m2 + e1 <= B + 1).
  { assert (0 <= Zdigits2 (shr_m r1)) by (destruct (shr_m r1); cbn; lia).
    pose proof (Zdigits2_mono m2 (shr_m r1 + 1) ltac:(lia)).
    pose proof (Zdigits2_succ (shr_m r1) (Zdigits2 (shr_m r1))
                  ltac:(lia) ltac:(lia) ltac:(lia)).
    lia. }
  destruct (shr_fexp_bound m2 e1 (B + 1) loc_Exact)
    as (r3 & e3 & -> & Hm3 & Hd3 & He3); [lia..|].
  destruct (shr_m r3) as [|m3|m3] eqn:Hr3; [exact I| |lia].
  replace (1024 - 53) with 971 by reflexivity.
  destruct (Z.leb_spec e3 971); [exact Hd3|lia].
Qed.

Lemma magnitude_le_mono (x : spec_float) (B B' : Z) :
  B <= B' → magnitude_le x B → magnitude_le x B'.
Proof. destruct x; cbn; try tauto. lia. Qed.

(** The double nearest to [p / q] is finite when [p] has at most 900 bits. *)
Lemma float_of_ratio_bound (neg : bool) (p q k : Z) :
  0 <= p < 2 ^ k → 0 < q → 0 <= k <= 900 →
  magnitude_le (Py.float_of_ratio neg p q) (k + 1).
Proof.
  intros Hp Hq Hk. unfold Py.float_of_ratio.
  destruct (Z.eqb_spec p 0) as [->|Hp0]; [exact I|].
  unfold SFdiv_core_binary, Py.prec, Py.emax.
  set (d1 := Zdigits2 p). set (d2 := Zdigits2 q).
  set (e' := Z.min (fexp 53 1024 (d1 + 0 - (d2 + 0))) (0 - 0)).
  assert (He' : e' <= 0) by (unfold e'; lia).
  set (m' := match 0 - 0 - e' with
             | Z0 => p
             | Zpos _ => Z.shiftl p (0 - 0 - e')
             | Zneg _ => 0
             end).
  assert (Hm' : m' = p * 2 ^ (- e')).
  { unfold m'. destruct (0 - 0 - e') as [|n|n] eqn:Hs; [| |lia].
    - replace (- e') with 0 by lia. lia.
    - rewrite Z.shiftl_mul_pow2 by lia. f_equal. f_equal. lia. }
  assert (Hpow : 0 < 2 ^ (- e')) by (apply Z.pow_pos_nonneg; lia).
  pose proof (Z_div_mod m' q ltac:(lia)) as Hdm.
  destruct (Z.div_eucl m' q) as [qq r] eqn:Hde.
  assert (Hqq : 0 <= qq <= m') by nia.
  assert (Hd1 : d1 <= k) by (apply Zdigits2_le_iff; lia).
  assert (Hd1' : 0 <= d1) by (unfold d1; destruct p; cbn; lia).
  apply magnitude_le_mono with (d1 + 1); [lia|].
  apply binary_round_aux_bound; [lia| |lia|lia].
  assert (Hfit : Zdigits2 qq <= d1 - e'); [|lia].
  apply Zdigits2_le_iff; [lia|lia|].
  replace (d1 - e') with (d1 + - e') by lia.
  rewrite Z.pow_add_r by lia.
  assert (p < 2 ^ d1) by (apply Zdigits2_le_iff; unfold d1; lia).
  nia.
Qed.

Lemma round_half_even_bound (p q : Z) :
  0 <= p → 0 < q → 0 <= Py.round_half_even p q <= p / q + 1.
Proof.
  intros Hp Hq. unfold Py.round_half_even.
  pose proof (Z_div_mod p q ltac:(lia)) as Hdm.
  unfold Z.div. destruct (Z.div_eucl p q) as [d r].
  assert (0 <= d) by nia. cbn [fst].
  destruct (2 * r ?= q); [destruct (Z.even d)| |]; lia.
Qed.

(** [round(x, 2)] does not raise on a value below [2 ^ 800]. *)
Lemma float_round_2_ok (x : spec_float) (T : Z) :
  magnitude_le x T → 0 <= T <= 800 →
  ∃ r, Py.float_round x 2 = Ok r ∧ magnitude_le r (T + 9).
Proof.
  intros Hx HT. destruct x as [s|s| |s m e]; try contradiction.
  - exists (S754_zero s). split; [reflexivity|exact I].
  - cbn [magnitude_le] in Hx.
    assert (Hd : 1 <= Zdigits2 (Zpos m)) by (cbn; lia).
    assert (Hm : Zpos m < 2 ^ (T - e)) by (apply Zdigits2_le_iff; lia).
    unfold Py.float_round.
    change (323 <? 2) with false. change (2 <? -308) with false.
    change (0 <=? 2) with true. change (10 ^ Z.abs 2) with 100. cbv iota.
    set (num := Zpos m * (if 0 <=? e then 2 ^ e else 1) * 100).
    set (den := (if 0 <=? e then 1 else 2 ^ (- e)) * 1).
    assert (Hnd : 0 <= num ∧ 0 < den ∧ num / den < 2 ^ (T + 7)).
    { unfold num, den. destruct (Z.leb_spec 0 e).
      - assert (0 < 2 ^ e) by (apply Z.pow_pos_nonneg; lia).
        rewrite Z.mul_1_l, Z.div_1_r. split; [nia|]. split; [lia|].
        replace (T + 7) with (T - e + e + 7) by lia.
        rewrite !Z.pow_add_r by lia. change (2 ^ 7) with 128. nia.
      - assert (0 < 2 ^ (- e)) by (apply Z.pow_pos_nonneg; lia).
        split; [lia|]. split; [lia|].
        apply Z.div_lt_upper_bound; [lia|].
        replace (T - e) with (T + - e) in Hm by lia.
        rewrite Z.pow_add_r in Hm by lia.
        rewrite Z.pow_add_r by lia. change (2 ^ 7) with 128.
        assert (0 < 2 ^ T) by (apply Z.pow_pos_nonneg; lia). nia. }
    destruct Hnd as (Hnum & Hden & Hquot).
    pose proof (round_half_even_bound num den Hnum Hden) as Hn.
    set (n := Py.round_half_even num den) in *.
    assert (Hfit : 0 <= n < 2 ^ (T + 8)).
    { replace (T + 8) with (T + 7 + 1) by lia.
      rewrite (Z.pow_add_r 2 (T + 7) 1) by lia. lia. }
    pose proof (float_of_ratio_bound s n 100 (T + 8) Hfit ltac:(lia)
                  ltac:(lia)) as Hr.
    rewrite (magnitude_le_finite _ _ Hr).
    eexists. split; [reflexivity|].
    now replace (T + 9) with (T + 8 + 1) by lia.
Qed.

(** The elapsed time of a run is computed without an exception. *)
Lemma elapsed_seconds_ok (start_time end_time : datetime) :
  datetime_in_range start_time → datetime_in_range end_time →
  ∃ seconds, elapsed_seconds start_time end_time = Ok seconds.
Proof.
  unfold datetime_in_range, elapsed_seconds, Py.truediv.
  intros Ha Hb. change (1000000 =? 0) with false. cbv iota.
  set (delta := dt_micros end_time - dt_micros start_time).
  assert (Hdelta : 0 <= Z.abs delta < 2 ^ 59).
  { change (2 ^ 59) with 576460752303423488. lia. }
  pose proof (float_of_ratio_bound
                (xorb (delta <? 0) (1000000 <? 0)) (Z.abs delta)
                (Z.abs 1000000) 59 Hdelta ltac:(lia) ltac:(lia)) as Hq.
  rewrite (magnitude_le_finite _ _ Hq). cbn [rbind Py.round].
  destruct (float_round_2_ok _ 60 Hq ltac:(lia)) as (r & -> & _).
  by eexists.
Qed.

(** ** The Reconciler's stages *)

(** C6: when the raw object of the run date is absent, [read_from_s3]
    raises its own exception, which names the key and is not the storage
    error it caught; a storage error of another kind, in any world, comes out
    unchanged, so the two are told apart. *)
Theorem missing_raw_object_is_reported (w : world) (run_date : list N)
  (st : state) :
  w_fault w (st_calls st) = None →
  w_raw w (raw_key run_date) = None →
  fst (Transform.read_from_s3 w run_date st)
  = Raise (missing_upstream run_date)
  ∧ missing_upstream run_date ≠ S3.NoSuchKey
  ∧ ∀ (w' : world) (e : exn),
      w_fault w' (st_calls st) = Some e →
      exn_type e ≠ "NoSuchKey" →
      fst (Transform.read_from_s3 w' run_date st) = Raise e
      ∧ (exn_type e ≠ "Exception" → e ≠ missing_upstream run_date).
Proof.
  intros Hfault Hraw. split; [|split].
  - unfold Transform.read_from_s3, try_except, S3.get_object, bind, outside.
    fold (raw_key run_date). rewrite Hfault, Hraw. reflexivity.
  - discriminate.
  - intros w' e Hfault' Htype. split.
    + unfold Transform.read_from_s3, try_except, S3.get_object, bind,
        outside.
      rewrite Hfault'.
      destruct (String.eqb_spec (exn_type e) "NoSuchKey"); [contradiction|].
      reflexivity.
    + intros Hne ->. by apply Hne.
Qed.

(** C8: the procedure is called with (batch id, run date), in this order.
    When it answers five values in a row, the CDC Result holds them field by
    field in the same order and the transaction is committed; when it
    answers no row, the function rolls back and raises its own exception
    (the specification's ReconciliationError). *)
Theorem cdc_result_keeps_the_order (w : world) (batch_id : sqlval)
  (run_date : list N) (st : state) :
  (∀ n, w_fault w n = None) →
  let call := DbExecute CallProcessCdcBatch [batch_id; VText run_date] in
  let answer := fst (w_cdc w [batch_id; VText run_date] (st_tx st)) in
  (∀ a b c d e more,
     answer = [a; b; c; d; e] :: more →
     ∃ st',
       Transform.execute_cdc_batch_processing w batch_id run_date st
       = (Ok {| Transform.new_books := a;
                Transform.removed_books := b;
                Transform.price_changes := c;
                Transform.stock_changes := d;
                Transform.total_processed := e |}, st')
       ∧ st_log st'
         = st_log st ++ [PoolGetConn; call; DbCommit; PoolPutConn])
  ∧ (answer = [] →
     ∃ st',
       Transform.execute_cdc_batch_processing w batch_id run_date st
       = (Raise (Exception
                   (Py.str "CDC stored procedure returned no results")), st')
       ∧ st_log st'
         = st_log st ++ [PoolGetConn; call; DbRollback; PoolPutConn]
       ∧ st_db st' = st_db st ∧ st_tx st' = st_db st).
Proof.
  intros Hfault call answer. subst call answer.
  destruct (w_cdc w [batch_id; VText run_date] (st_tx st))
    as [rows table] eqn:Hcdc.
  cbn [fst].
  split; [intros a b c d e more ->|intros ->];
    unfold Transform.execute_cdc_batch_processing, DbUtils.with_connection,
      DbUtils.get_db_connection, DbUtils.return_db_connection,
      try_finally, try_except, Pg.execute, Pg.commit, Pg.rollback, bind,
      step, ret, raise, lift, outside;
    repeat (progress (cbn; rewrite ?Hfault, ?Hcdc));
    eexists; repeat split; rewrite <- ?app_assoc; reflexivity.
Qed.

(** ** The handlers *)

(** The connection test passes when the database answers. *)
Lemma test_connection_ok (w : world) (st : state) :
  (∀ n, w_fault w n = None) →
  DbUtils.test_connection w st
  = (Ok true,
     set_tables
       (set_log st (4 + st_calls st)
          (st_log st
           ++ [PoolGetConn; DbExecute SelectOne []; DbCommit; PoolPutConn]))
       (st_tx st) (st_tx st)).
Proof.
  intros Hfault.
  unfold DbUtils.test_connection, DbUtils.execute_query,
    DbUtils.with_connection, DbUtils.get_db_connection,
    DbUtils.return_db_connection, try_finally, try_except, Pg.execute,
    Pg.commit, Pg.rollback, bind, step, ret, raise, lift, outside.
  repeat (progress (cbn; rewrite ?Hfault)).
  unfold set_tables, set_log. cbn. rewrite <- !app_assoc. reflexivity.
Qed.

(** C5: when the database answers and the page yields no record, the
    Collector's run raises the empty-scrape exception after the connection
    test and the fetch alone: no object is put in the bucket and nothing is
    sent to the staging table. *)
Theorem empty_scrape_fails_before_writes (w : world) (st : state) :
  (∀ n, w_fault w n = None) →
  clock_in_range w →
  w_page w = [] →
  ∃ st',
    Extract.lambda_handler w st = (Raise empty_result, st')
    ∧ st_log st'
      = st_log st
        ++ [PoolGetConn; DbExecute SelectOne []; DbCommit; PoolPutConn;
            HttpGet]
    ∧ st_tx st' = st_tx st.
Proof.
  intros Hfault Hclock Hpage.
  unfold Extract.lambda_handler, DbUtils.generate_batch_id.
  unfold bind at 1. unfold utcnow at 1.
  unfold bind at 1. unfold bind at 1. unfold utcnow at 1. unfold ret at 1.
  unfold try_except, Extract.handler_body.
  unfold bind at 1. rewrite test_connection_ok by assumption.
  unfold Extract.scrape_books, bind, ret, raise, outside.
  cbn. rewrite Hfault, Hpage. cbn.
  unfold Extract.handler_except, bind, utcnow, lift, raise. cbn.
  destruct (elapsed_seconds_ok (w_clock w (st_ticks st))
              (w_clock w (S (S (st_ticks st))))) as [seconds ->];
    [apply Hclock..|].
  eexists. split; [reflexivity|]. cbn. rewrite <- !app_assoc. by split.
Qed.

(** C9: an exception raised in the [try] block of the Collector's handler
    leaves the handler as the same exception; the Reconciler's handler
    always returns, and for an exception raised in its [try] block it
    returns status 500 with the message and the type of that exception. *)
Theorem collector_raises_reconciler_reports (w : world) (st : state) :
  clock_in_range w →
  let start_time := w_clock w (st_ticks st) in
  let run_date := dt_date start_time in
  let batch_id :=
    Py.str "extract" ++ Py.str "_" ++ dt_stamp (w_clock w (S (st_ticks st))) in
  (∀ e st1,
     Extract.handler_body w start_time run_date batch_id (tick (tick st))
     = (Raise e, st1) →
     ∃ st', Extract.lambda_handler w st = (Raise e, st'))
  ∧ (∃ response st', Transform.lambda_handler w st = (Ok response, st'))
  ∧ (∀ e st1,
       Transform.handler_body w start_time run_date (tick st)
       = (Raise e, st1) →
       ∃ seconds timestamp st',
         Transform.lambda_handler w st
         = (Ok {| Transform.statusCode := 500;
                  Transform.response_body :=
                    Transform.ErrorBody run_date (exn_msg e) (exn_type e)
                      seconds timestamp |}, st')).
Proof.
  intros Hclock start_time run_date batch_id.
  assert (Hexcept : ∀ e st1, ∃ seconds,
            Transform.handler_except w start_time run_date e st1
            = (Ok {| Transform.statusCode := 500;
                     Transform.response_body :=
                       Transform.ErrorBody run_date (exn_msg e) (exn_type e)
                         seconds (dt_iso (w_clock w (st_ticks st1))) |},
               tick st1)).
  { intros e st1.
    unfold Transform.handler_except, bind, utcnow, lift, ret.
    destruct (elapsed_seconds_ok start_time (w_clock w (st_ticks st1)))
      as [seconds ->]; [apply Hclock..|].
    by exists seconds. }
  split; [|split].
  - intros e st1 Hbody.
    change (Extract.lambda_handler w st)
      with (try_except
              (Extract.handler_body w start_time run_date batch_id)
              (Extract.handler_except w start_time) (tick (tick st))).
    unfold try_except. rewrite Hbody.
    unfold Extract.handler_except, bind, utcnow, lift, raise.
    destruct (elapsed_seconds_ok start_time (w_clock w (st_ticks st1)))
      as [seconds ->]; [apply Hclock..|].
    by eexists.
  - change (Transform.lambda_handler w st)
      with (try_except (Transform.handler_body w start_time run_date)
              (Transform.handler_except w start_time run_date) (tick st)).
    unfold try_except.
    destruct (Transform.handler_body w start_time run_date (tick st))
      as [[response|e] st1].
    + by eexists _, _.
    + destruct (Hexcept e st1) as [seconds ->]. by eexists _, _.
  - intros e st1 Hbody.
    change (Transform.lambda_handler w st)
      with (try_except (Transform.handler_body w start_time run_date)
              (Transform.handler_except w start_time run_date) (tick st)).
    unfold try_except. rewrite Hbody.
    destruct (Hexcept e st1) as [seconds ->]. by eexists _, _, _.
Qed.

(** ** The batch lookup *)

(** The statement of [get_extract_batch_id] orders a [SELECT DISTINCT] by a
    column that it does not select. *)
Lemma batch_id_query_rejected (params : list sqlval)
  (table : list staging_row) :
  Pg.select Transform.batch_id_query params table
  = Raise Pg.InvalidColumnReference.
Proof. reflexivity. Qed.

(** Whatever the staging table holds, PostgreSQL rejects the statement of
    [get_extract_batch_id], and the function raises the database's error. *)
Lemma batch_lookup_always_rejected (w : world) (run_date : list N)
  (st : state) :
  (∀ n, w_fault w n = None) →
  fst (Transform.get_extract_batch_id w run_date st)
  = Raise Pg.InvalidColumnReference.
Proof.
  intros Hfault.
  unfold Transform.get_extract_batch_id, DbUtils.with_connection,
    DbUtils.get_db_connection, DbUtils.return_db_connection, try_finally,
    try_except, Pg.execute, bind, step, ret, raise, lift, outside.
  repeat (progress (cbn; rewrite ?Hfault, ?batch_id_query_rejected)).
  reflexivity.
Qed.

(** Without [DISTINCT] the statement selects the batch of the most recent
    unprocessed row of the date, and nothing when there is none. *)
Lemma plain_batch_query_selects_latest :
  Pg.select batch_id_query_plain [VText run_day]
    [staged_row 1 (Py.str "extract_2026-02-03_070000");
     staged_row 2 morning_batch]
  = Ok [[VText morning_batch]]
  ∧ Pg.select batch_id_query_plain [VText run_day] [] = Ok [].
Proof. split; vm_compute; reflexivity. Qed.

(** C7, on the code: with one unprocessed row staged for the run date,
    [get_extract_batch_id] does not return its batch identifier, and with an
    empty staging table it does not raise its own "no unprocessed batch"
    exception: in both cases the database rejects the statement
    ([SELECT DISTINCT batch_id ... ORDER BY created_at]) and that error is
    what the function raises. *)
Theorem batch_lookup_raises_database_error :
  fst (Transform.get_extract_batch_id quiet_world run_day
         (initial_state [staged_row 1 morning_batch]))
  = Raise Pg.InvalidColumnReference
  ∧ fst (Transform.get_extract_batch_id quiet_world run_day
           (initial_state []))
    = Raise Pg.InvalidColumnReference
  ∧ Pg.InvalidColumnReference
    ≠ Exception (Py.str "No unprocessed batch found for date: " ++ run_day).
Proof.
  split; [|split]; [vm_compute; reflexivity..|discriminate].
Qed.

(** ** The theorems at concrete inputs *)

Lemma price_symbol_is_stripped_51_77 :
  let s := Py.str "51.77" in
  let value := Ok (Py.literal 5177 (-2)) in
  Extract.parse_price (Py.pound :: s) = value
  ∧ Extract.parse_price (Py.a_circumflex :: Py.pound :: s) = value
  ∧ Transform.extract_price (Py.pound :: s) = value
  ∧ Transform.extract_price (Py.a_circumflex :: Py.pound :: s) = value.
Proof.
  assert (Hp : Py.pound ∉ Py.str "51.77")
    by (apply (bool_decide_unpack _); vm_compute; exact I).
  assert (Ha : Py.a_circumflex ∉ Py.str "51.77")
    by (apply (bool_decide_unpack _); vm_compute; exact I).
  destruct (price_symbol_is_stripped (Py.str "51.77") Hp Ha) as [H Hv].
  cbv zeta in *. rewrite Hv in H. exact H.
Defined.

Lemma staging_insert_count_example :
  (∀ n, w_fault quiet_world n = None)
  ∧ Forall scraped [book_A; book_bad_price; book_B]
  ∧ ∃ st' rows,
      Extract.save_to_rds quiet_world [book_A; book_bad_price; book_B]
        run_day (raw_key run_day) morning_batch (initial_state [])
      = (Ok 2, st')
      ∧ st_db st' = [] ++ rows
      ∧ length rows = 2%nat.
Proof.
  assert (H1 : ∀ n, w_fault quiet_world n = None) by reflexivity.
  assert (H2 : Forall scraped [book_A; book_bad_price; book_B]).
  { repeat constructor; eexists; vm_compute; reflexivity. }
  split; [exact H1|]. split; [exact H2|].
  exact (staging_insert_count quiet_world [book_A; book_bad_price; book_B]
           run_day (raw_key run_day) morning_batch (initial_state []) H1 H2).
Defined.

Lemma average_is_zero_without_stock_example :
  Forall (λ b, counts_in_stock b = false) [book_B; book_lower_case]
  ∧ ∃ processed summary st',
      Transform.transform_data quiet_world [book_B; book_lower_case]
        (initial_state [])
      = (Ok (processed, summary), st')
      ∧ sm_books_in_stock summary = 0
      ∧ sm_average_price_gbp summary = Py.PInt 0.
Proof.
  assert (H : Forall (λ b, counts_in_stock b = false)
                [book_B; book_lower_case]).
  { repeat constructor; vm_compute; reflexivity. }
  split; [exact H|].
  exact (average_is_zero_without_stock quiet_world [book_B; book_lower_case]
           (initial_state []) H).
Defined.

Lemma quiet_clock_in_range : clock_in_range quiet_world.
Proof. intros n. unfold datetime_in_range. cbn. lia. Defined.

Lemma empty_scrape_fails_before_writes_example :
  (∀ n, w_fault quiet_world n = None)
  ∧ clock_in_range quiet_world
  ∧ w_page quiet_world = []
  ∧ ∃ st',
      Extract.lambda_handler quiet_world (initial_state [])
      = (Raise empty_result, st')
      ∧ st_log st'
        = [] ++ [PoolGetConn; DbExecute SelectOne []; DbCommit; PoolPutConn;
                 HttpGet]
      ∧ st_tx st' = [].
Proof.
  assert (H1 : ∀ n, w_fault quiet_world n = None) by reflexivity.
  split; [exact H1|]. split; [exact quiet_clock_in_range|].
  split; [reflexivity|].
  exact (empty_scrape_fails_before_writes quiet_world (initial_state [])
           H1 quiet_clock_in_range eq_refl).
Defined.

Lemma missing_raw_object_is_reported_example :
  fst (Transform.read_from_s3 quiet_world run_day (initial_state []))
  = Raise (missing_upstream run_day)
  ∧ fst (Transform.read_from_s3 denied_world run_day (initial_state []))
    = Raise access_denied
  ∧ access_denied ≠ missing_upstream run_day.
Proof.
  destruct (missing_raw_object_is_reported quiet_world run_day
              (initial_state []) eq_refl eq_refl) as (Hmissing & _ & Hother).
  destruct (Hother denied_world access_denied eq_refl ltac:(discriminate))
    as [Hdenied Hdistinct].
  split; [exact Hmissing|]. split; [exact Hdenied|].
  apply Hdistinct. discriminate.
Defined.

Lemma cdc_result_keeps_the_order_example :
  (∃ st',
     Transform.execute_cdc_batch_processing cdc_world (VText morning_batch)
       run_day (initial_state [])
     = (Ok {| Transform.new_books := VInt 1;
              Transform.removed_books := VInt 2;
              Transform.price_changes := VInt 3;
              Transform.stock_changes := VInt 4;
              Transform.total_processed := VInt 5 |}, st')
     ∧ st_log st'
       = [] ++ [PoolGetConn;
                DbExecute CallProcessCdcBatch
                  [VText morning_batch; VText run_day];
                DbCommit; PoolPutConn])
  ∧ ∃ st',
      Transform.execute_cdc_batch_processing quiet_world
        (VText morning_batch) run_day (initial_state [])
      = (Raise (Exception
                  (Py.str "CDC stored procedure returned no results")), st')
      ∧ st_log st'
        = [] ++ [PoolGetConn;
                 DbExecute CallProcessCdcBatch
                   [VText morning_batch; VText run_day];
                 DbRollback; PoolPutConn]
      ∧ st_db st' = [] ∧ st_tx st' = [].
Proof.
  split.
  - exact (proj1 (cdc_result_keeps_the_order cdc_world (VText morning_batch)
                    run_day (initial_state []) (fun _ => eq_refl))
             (VInt 1) (VInt 2) (VInt 3) (VInt 4) (VInt 5) [] eq_refl).
  - exact (proj2 (cdc_result_keeps_the_order quiet_world
                    (VText morning_batch) run_day (initial_state [])
                    (fun _ => eq_refl)) eq_refl).
Defined.

Lemma dead_clock_in_range : clock_in_range dead_world.
Proof. intros n. unfold datetime_in_range. cbn. lia. Defined.

Lemma collector_raises_reconciler_reports_example :
  clock_in_range dead_world
  ∧ (∃ st',
       Extract.lambda_handler dead_world (initial_state [])
       = (Raise connection_test_failed, st'))
  ∧ ∃ seconds timestamp st',
      Transform.lambda_handler dead_world (initial_state [])
      = (Ok {| Transform.statusCode := 500;
               Transform.response_body :=
                 Transform.ErrorBody run_day
                   (Py.str "Database connection test failed") "Exception"
                   seconds timestamp |}, st').
Proof.
  destruct (collector_raises_reconciler_reports dead_world (initial_state [])
              dead_clock_in_range) as (Hcollector & _ & Hreconciler).
  split; [exact dead_clock_in_range|]. split.
  - eapply Hcollector. vm_compute. reflexivity.
  - eapply (Hreconciler connection_test_failed). vm_compute. reflexivity.
Defined.

Lemma in_stock_flag_agrees_example :
  ∃ availability acc' st',
    book_lower_case !! "availability" = Some availability
    ∧ let flag := Py.contains (Py.str "In stock") availability in
      [VText (Py.str "D"); VFloat (Py.literal 300 (-2));
       VText (Py.str "in stock"); VBool false; VText run_day;
       VText morning_batch] !! 3%nat = Some (VBool flag)
      ∧ Transform.transform_book quiet_world book_lower_case
          {| Transform.processed := [];
             Transform.total_value_gbp := Py.PInt 0;
             Transform.in_stock_count := 0;
             Transform.out_of_stock_count := 0 |} (initial_state [])
        = (Ok acc', st')
      ∧ Transform.in_stock_count acc' = 0 + (if flag then 1 else 0)
      ∧ Transform.out_of_stock_count acc' = 0 + (if flag then 0 else 1)
      ∧ Py.contains (Py.str "In stock") (Py.str "in stock") = false.
Proof.
  refine (in_stock_flag_agrees quiet_world book_lower_case run_day
            morning_batch _ (Py.literal 300 (-2)) _ (initial_state []) _ _);
    vm_compute; reflexivity.
Defined.

(** * Further properties *)

(** ** What a computation adds to the call log *)

Lemma logs_ret {A} (P : event → Prop) (a : A) : logs P (ret a).
Proof. intros st. exists []. split; [by rewrite app_nil_r|constructor]. Qed.

Lemma logs_raise {A} (P : event → Prop) (e : exn) : logs P (@raise A e).
Proof. intros st. exists []. split; [by rewrite app_nil_r|constructor]. Qed.

Lemma logs_lift {A} (P : event → Prop) (r : result A) : logs P (lift r).
Proof. intros st. exists []. split; [by rewrite app_nil_r|constructor]. Qed.

Lemma logs_utcnow (P : event → Prop) (w : world) : logs P (utcnow w).
Proof. intros st. exists []. split; [by rewrite app_nil_r|constructor]. Qed.

Lemma logs_outside (P : event → Prop) (w : world) (ev : event) :
  P ev → logs P (outside w ev).
Proof.
  intros Hev st. exists [ev]. unfold outside.
  destruct (w_fault w (st_calls st)); (split; [reflexivity|by constructor]).
Qed.

Lemma logs_bind {A B} (P : event → Prop) (m : M A) (k : A → M B) :
  logs P m → (∀ a, logs P (k a)) → logs P (bind m k).
Proof.
  intros Hm Hk st. unfold bind. destruct (Hm st) as (l1 & Hl1 & HP1).
  destruct (m st) as [[a|e] st1]; cbn [snd] in *.
  - destruct (Hk a st1) as (l2 & Hl2 & HP2).
    exists (l1 ++ l2). rewrite Hl2, Hl1, app_assoc.
    split; [reflexivity|by apply Forall_app].
  - by exists l1.
Qed.

Lemma logs_try_except {A} (P : event → Prop) (body : M A)
  (handler : exn → M A) :
  logs P body → (∀ e, logs P (handler e)) → logs P (try_except body handler).
Proof.
  intros Hm Hk st. unfold try_except. destruct (Hm st) as (l1 & Hl1 & HP1).
  destruct (body st) as [[a|e] st1]; cbn [snd] in *.
  - by exists l1.
  - destruct (Hk e st1) as (l2 & Hl2 & HP2).
    exists (l1 ++ l2). rewrite Hl2, Hl1, app_assoc.
    split; [reflexivity|by apply Forall_app].
Qed.

(** A step on the tables leaves the log alone. *)
Lemma logs_step {A} (P : event → Prop) (f : state → result A * state) :
  (∀ st, st_log (snd (f st)) = st_log st) → logs P (step f).
Proof.
  intros Hf st. exists []. rewrite app_nil_r. split; [apply Hf|constructor].
Qed.

Lemma logs_execute (w : world) (q : sql) (params : list sqlval) :
  logs is_db_statement (Pg.execute w q params).
Proof.
  apply logs_bind; [by apply logs_outside|]. intros _. apply logs_step.
  intros st. destruct q; cbn; try reflexivity.
  - by destruct (Pg.insert_row _ _).
  - by destruct (Pg.select _ _ _).
  - by destruct (w_cdc w params (st_tx st)).
Qed.

Lemma logs_executemany (w : world) (q : sql) (rows : list (list sqlval)) :
  logs is_db_statement (Pg.executemany w q rows).
Proof.
  apply logs_bind; [by apply logs_outside|]. intros _. apply logs_step.
  intros st. destruct q; cbn; try reflexivity.
  by destruct (Pg.insert_rows _ _).
Qed.

Lemma logs_commit (w : world) : logs is_db_statement (Pg.commit w).
Proof.
  apply logs_bind; [by apply logs_outside|]. intros _. by apply logs_step.
Qed.

Lemma logs_rollback (w : world) : logs is_db_statement (Pg.rollback w).
Proof.
  apply logs_bind; [by apply logs_outside|]. intros _. by apply logs_step.
Qed.

(** The shape shared by the functions that use a connection gives the
    connection back on every path. *)
Lemma with_connection_uses_one {A} (w : world) (on_error : M unit)
  (body : M A) :
  logs is_db_statement body → logs is_db_statement on_error →
  uses_one_connection w (DbUtils.with_connection w on_error body).
Proof.
  intros Hbody Herr st.
  unfold DbUtils.with_connection, DbUtils.get_db_connection, outside.
  destruct (w_fault w (st_calls st)) as [e|]; [reflexivity|].
  set (st1 := set_log st (S (st_calls st)) (st_log st ++ [PoolGetConn])).
  assert (Hprot : logs is_db_statement
                    (try_except body (λ e, on_error ;; raise e))).
  { apply logs_try_except; [assumption|]. intros e.
    apply logs_bind; [assumption|]. intros _. apply logs_raise. }
  destruct (Hprot st1) as (middle & Hlog & Hmiddle).
  exists middle. split; [|assumption].
  unfold try_finally, DbUtils.return_db_connection, outside.
  destruct (try_except body (λ e, on_error;; raise e) st1) as [r st2].
  cbn [snd] in Hlog.
  destruct (w_fault w (st_calls st2)); cbn; rewrite Hlog; unfold st1; cbn;
    by rewrite <- !app_assoc.
Qed.

(** X1: [execute_query], [save_to_rds], [get_extract_batch_id] and
    [execute_cdc_batch_processing] never keep a connection: when the pool
    gives none, that failure is raised and nothing else is called; otherwise
    the calls are the acquisition, then statements, commits and rollbacks
    only, then the release, whether the function returns or raises. *)
Theorem connection_is_always_returned (w : world) :
  (∀ query params fetch,
     uses_one_connection w (DbUtils.execute_query w query params fetch))
  ∧ (∀ books run_date s3_key batch_id,
       uses_one_connection w
         (Extract.save_to_rds w books run_date s3_key batch_id))
  ∧ (∀ run_date,
       uses_one_connection w (Transform.get_extract_batch_id w run_date))
  ∧ (∀ batch_id run_date,
       uses_one_connection w
         (Transform.execute_cdc_batch_processing w batch_id run_date)).
Proof.
  split; [|split; [|split]]; intros.
  - apply with_connection_uses_one; [|apply logs_rollback].
    apply logs_bind; [apply logs_execute|]. intros cur.
    destruct fetch.
    + apply logs_bind; [apply logs_lift|]. intros rows.
      apply logs_bind; [apply logs_commit|]. intros _. apply logs_ret.
    + apply logs_bind; [apply logs_commit|]. intros _. apply logs_ret.
  - apply with_connection_uses_one; [|apply logs_rollback].
    apply logs_bind; [apply logs_executemany|]. intros _.
    apply logs_bind; [apply logs_commit|]. intros _. apply logs_ret.
  - apply with_connection_uses_one; [|apply logs_ret].
    apply logs_bind; [apply logs_execute|]. intros cur.
    apply logs_bind; [apply logs_lift|]. intros [[|batch row]|];
      first [apply logs_raise|apply logs_ret].
  - apply with_connection_uses_one; [|apply logs_rollback].
    apply logs_bind; [apply logs_execute|]. intros cur.
    apply logs_bind; [apply logs_lift|]. intros result.
    repeat case_match; try apply logs_raise.
    apply logs_bind; [apply logs_commit|]. intros _. apply logs_ret.
Qed.

(** ** Transactions *)


(** The tuple built for a record and the row it becomes. *)
Lemma row_of_staging_tuple (now : Z) (b : book) (run_date batch_id : list N) :
  match Extract.staging_tuple b run_date batch_id with
  | Ok t =>
      ∃ r, row_of_book now run_date batch_id b = Some r
           ∧ Pg.insert_row now t = Ok r
  | Raise _ => row_of_book now run_date batch_id b = None
  end.
Proof.
  unfold Extract.staging_tuple, row_of_book, subscript.
  destruct (b !! "price") as [p|]; cbn [rbind];
    [|by destruct (b !! "title")].
  destruct (Extract.parse_price p) as [x|]; cbn [rbind];
    [|by destruct (b !! "title"), (b !! "availability")].
  destruct (b !! "availability") as [a|]; cbn [rbind];
    [|by destruct (b !! "title")].
  destruct (b !! "title") as [t|]; cbn [rbind]; [|reflexivity].
  by eexists.
Qed.

(** The rows that the loop of [save_to_rds] hands to the [INSERT] become
    the rows of [row_of_book], in the order of the records. *)
Lemma insert_rows_of_books (now : Z) (books : list book)
  (run_date batch_id : list N) :
  Pg.insert_rows now (Extract.batch_data books run_date batch_id)
  = Ok (omap (row_of_book now run_date batch_id) books).
Proof.
  induction books as [|b books IH]; [reflexivity|].
  cbn [Extract.batch_data omap list_omap].
  pose proof (row_of_staging_tuple now b run_date batch_id) as Hb.
  destruct (Extract.staging_tuple b run_date batch_id) as [t|e].
  - destruct Hb as (r & -> & Hr). cbn [Pg.insert_rows].
    rewrite Hr, IH. reflexivity.
  - rewrite Hb. exact IH.
Qed.

Lemma batch_data_rows (now : Z) (books : list book)
  (run_date batch_id : list N) :
  length (Extract.batch_data books run_date batch_id)
  = length (omap (row_of_book now run_date batch_id) books).
Proof.
  induction books as [|b books IH]; [reflexivity|].
  cbn [Extract.batch_data omap list_omap].
  pose proof (row_of_staging_tuple now b run_date batch_id) as Hb.
  destruct (Extract.staging_tuple b run_date batch_id) as [t|e].
  - destruct Hb as (r & -> & _). cbn. by rewrite IH.
  - by rewrite Hb.
Qed.

(** X3: [save_to_rds] inserts all of a batch or nothing.  When it returns
    [n], the committed staging table has gained exactly the rows of the
    records whose three keys are present and whose price parses, in the
    order of the scrape, each tagged with the run date and the one batch
    identifier and not yet processed, and [n] is their number; when it
    raises, the committed table is unchanged. *)
Theorem save_to_rds_all_or_nothing (w : world) (books : list book)
  (run_date s3_key batch_id : list N) (st : state) :
  let rows :=
    omap (row_of_book (w_db_now w (S (S (st_calls st)))) run_date batch_id)
      books in
  match Extract.save_to_rds w books run_date s3_key batch_id st with
  | (Ok n, st') =>
      n = Z.of_nat (length rows) ∧ st_db st' = st_tx st ++ rows
  | (Raise _, st') => st_db st' = st_db st
  end.
Proof.
  intros rows.
  unfold Extract.save_to_rds, DbUtils.with_connection,
    DbUtils.get_db_connection, DbUtils.return_db_connection, try_finally,
    try_except, Pg.executemany, Pg.commit, Pg.rollback, bind, step, ret,
    raise, outside.
  destruct (w_fault w (st_calls st)); [reflexivity|]. cbn.
  destruct (w_fault w (S (st_calls st))); cbn.
  { by destruct (w_fault w (S (S (st_calls st)))); cbn;
      destruct (w_fault w (S (S (S (st_calls st))))). }
  rewrite insert_rows_of_books. fold rows. cbn.
  destruct (w_fault w (S (S (st_calls st)))); cbn.
  { by destruct (w_fault w (S (S (S (st_calls st))))); cbn;
      destruct (w_fault w (S (S (S (S (st_calls st)))))). }
  destruct (w_fault w (S (S (S (st_calls st))))); cbn; split;
    try reflexivity; unfold rows; by rewrite <- batch_data_rows.
Qed.

(** X4: [test_connection] never raises, and it answers [True] exactly when
    the acquisition of a connection, the [SELECT 1] and the commit all go
    through; a failure of the release does not change the answer. *)
Theorem test_connection_never_raises (w : world) (st : state) :
  ∃ answer st',
    DbUtils.test_connection w st = (Ok answer, st')
    ∧ (answer = true
       ↔ w_fault w (st_calls st) = None
         ∧ w_fault w (S (st_calls st)) = None
         ∧ w_fault w (S (S (st_calls st))) = None).
Proof.
  unfold DbUtils.test_connection, DbUtils.execute_query,
    DbUtils.with_connection, DbUtils.get_db_connection,
    DbUtils.return_db_connection, try_finally, try_except, Pg.execute,
    Pg.commit, Pg.rollback, Pg.fetchall, bind, step, ret, raise, lift,
    outside.
  destruct (w_fault w (st_calls st)) as [e0|]; cbn.
  { eexists _, _. split; [reflexivity|]. split; [discriminate|].
    intros (H & _). discriminate H. }
  destruct (w_fault w (S (st_calls st))) as [e1|]; cbn.
  { destruct (w_fault w (S (S (st_calls st)))); cbn;
      destruct (w_fault w (S (S (S (st_calls st))))); cbn;
      eexists _, _; (split; [reflexivity|]);
      (split; [discriminate|intros (_ & H & _); discriminate H]). }
  destruct (w_fault w (S (S (st_calls st)))) as [e2|]; cbn.
  { destruct (w_fault w (S (S (S (st_calls st))))); cbn;
      destruct (w_fault w (S (S (S (S (st_calls st)))))); cbn;
      eexists _, _; (split; [reflexivity|]);
      (split; [discriminate|intros (_ & _ & H); discriminate H]). }
  destruct (w_fault w (S (S (S (st_calls st))))); cbn;
    eexists _, _; (split; [reflexivity|]); by split.
Qed.

(** ** Prices *)

(** Replacing a single code point by nothing deletes its occurrences. *)
Lemma replace_single_is_filter (c : N) (s : list N) :
  Py.replace [c] [] s = List.filter (λ d, negb (c =? d)%N) s.
Proof.
  unfold Py.replace. induction s as [|d s IH]; [reflexivity|].
  cbn [Py.replace_from Py.starts_with length List.filter].
  destruct (c =? d)%N; cbn; by rewrite IH.
Qed.

(** X5: the Collector's [parse_price] deletes every U+00A3 and every
    U+00C2 of the text, wherever they stand, strips the white space around
    what is left and converts that: a symbol in the middle of the digits is
    dropped like one in front. *)
Theorem parse_price_deletes_symbols (price_str : list N) :
  Extract.parse_price price_str
  = Py.py_float
      (Py.strip
         (List.filter
            (λ c, negb (Py.pound =? c)%N && negb (Py.a_circumflex =? c)%N)
            price_str)).
Proof.
  unfold Extract.parse_price. rewrite !replace_single_is_filter.
  do 2 f_equal. induction price_str as [|c s IH]; [reflexivity|].
  cbn [List.filter].
  destruct (Py.pound =? c)%N; cbn [negb andb List.filter]; [exact IH|].
  destruct (Py.a_circumflex =? c)%N; cbn [negb]; by rewrite IH.
Qed.

(** X6: on a text without U+00C2 the two jobs read the same price, wherever
    the currency symbol occurs and however often. *)
Theorem prices_agree_without_circumflex (price : list N) :
  Py.a_circumflex ∉ price →
  Transform.extract_price price = Extract.parse_price price.
Proof.
  intros Ha. unfold Transform.extract_price, Extract.parse_price.
  rewrite (replace_absent Py.a_circumflex [Py.pound] [] price Ha).
  rewrite (replace_absent Py.a_circumflex [] []); [reflexivity|].
  rewrite replace_single_is_filter.
  intros [Hin _]%list_elem_of_In%List.filter_In.
  apply Ha. by apply list_elem_of_In.
Qed.

(** ** The objects of the bucket *)

(** X7: the Reconciler asks the bucket for the key under which the
    Collector puts the raw list of the same run date.  [save_to_s3] returns
    that key unless the put fails; [read_from_s3] returns the list stored
    under it, raises its own exception when the key is absent or the bucket
    says so, and raises any other failure of the bucket unchanged. *)
Theorem raw_key_is_shared (w w' : world) (books : list book)
  (run_date : list N) (st st' : state) :
  Extract.save_to_s3 w books run_date st
  = (match w_fault w (st_calls st) with
     | None => Ok (raw_key run_date)
     | Some e => Raise e
     end,
     set_log st (S (st_calls st))
       (st_log st ++ [S3PutObject (raw_key run_date) (RawBooks books)]))
  ∧ Transform.read_from_s3 w' run_date st'
    = (match w_fault w' (st_calls st'), w_raw w' (raw_key run_date) with
       | None, Some stored => Ok stored
       | None, None => Raise (missing_upstream run_date)
       | Some e, _ =>
           if String.eqb (exn_type e) "NoSuchKey"
           then Raise (missing_upstream run_date)
           else Raise e
       end,
       set_log st' (S (st_calls st'))
         (st_log st' ++ [S3GetObject (raw_key run_date)])).
Proof.
  unfold Extract.save_to_s3, Transform.read_from_s3, S3.put_object,
    S3.get_object, try_except, bind, ret, raise, outside, missing_upstream.
  fold (raw_key run_date). split.
  - by destruct (w_fault w (st_calls st)).
  - destruct (w_fault w' (st_calls st')) as [e|].
    + by destruct (String.eqb (exn_type e) "NoSuchKey").
    + by destruct (w_raw w' (raw_key run_date)).
Qed.

(** X8: [save_processed_to_s3] puts the processed list first and the
    summary second, under two keys that differ from each other and from the
    raw key.  When the first put fails the summary is not attempted; when
    the second fails the processed list has already been put. *)
Theorem processed_objects_are_put_in_order (w : world)
  (processed : list processed_book) (summary : summary) (run_date : list N)
  (st : state) :
  let put_processed :=
    S3PutObject (processed_key run_date) (ProcessedBooks processed) in
  let put_summary :=
    S3PutObject (summary_key run_date) (SummaryDoc summary) in
  let '(r, st') :=
    Transform.save_processed_to_s3 w processed summary run_date st in
  match w_fault w (st_calls st), w_fault w (S (st_calls st)) with
  | Some e, _ => r = Raise e ∧ st_log st' = st_log st ++ [put_processed]
  | None, Some e =>
      r = Raise e ∧ st_log st' = st_log st ++ [put_processed; put_summary]
  | None, None =>
      r = Ok (processed_key run_date, summary_key run_date)
      ∧ st_log st' = st_log st ++ [put_processed; put_summary]
  end
  ∧ processed_key run_date ≠ summary_key run_date
  ∧ processed_key run_date ≠ raw_key run_date
  ∧ summary_key run_date ≠ raw_key run_date.
Proof.
  unfold Transform.save_processed_to_s3, S3.put_object, bind, ret, outside.
  fold (processed_key run_date) (summary_key run_date).
  cbv zeta.
  destruct (w_fault w (st_calls st)); cbn;
    [|destruct (w_fault w (S (st_calls st))); cbn];
    rewrite <- ?app_assoc; (split; [by split|]);
    repeat split; discriminate.
Qed.

(** ** The loop of the transform *)

(** The time stamp of a processed record is the only thing a turn of the
    loop takes from outside: the state moves by one clock reading per record
    added. *)
Lemma transform_book_step (w : world) (b : book) (acc : Transform.totals)
  (st : state) :
  ∃ acc' added,
    Transform.transform_book w b acc st
    = (Ok acc', Nat.iter (length added) tick st)
    ∧ Transform.processed acc' = Transform.processed acc ++ added
    ∧ Forall in_stock_record added
    ∧ Z.of_nat (length added)
      <= Transform.in_stock_count acc' - Transform.in_stock_count acc
    ∧ 0 <= Transform.out_of_stock_count acc'
           - Transform.out_of_stock_count acc
    ∧ (Transform.in_stock_count acc' - Transform.in_stock_count acc)
      + (Transform.out_of_stock_count acc'
         - Transform.out_of_stock_count acc) <= 1.
Proof.
  unfold Transform.transform_book.
  destruct (rbind (subscript b "price") Transform.extract_price) as [p|].
  2: { exists acc, []. rewrite app_nil_r. repeat split; first [apply List.Forall_nil|cbn; lia]. }
  destruct (subscript b "availability") as [a|] eqn:Ha.
  2: { exists acc, []. rewrite app_nil_r. repeat split; first [apply List.Forall_nil|cbn; lia]. }
  destruct (Py.contains (Py.str "In stock") a) eqn:Hstock.
  2: { eexists _, []. rewrite app_nil_r. cbn.
       repeat split; first [apply List.Forall_nil|cbn; lia]. }
  destruct (Py.add (Transform.total_value_gbp acc) (Py.PFloat p)) as [t|].
  2: { eexists _, []. rewrite app_nil_r. cbn.
       repeat split; first [apply List.Forall_nil|cbn; lia]. }
  unfold Transform.processed_fields. rewrite Ha.
  destruct (subscript b "title") as [ti|]; cbn [rbind].
  2: { eexists _, []. rewrite app_nil_r. cbn.
       repeat split; first [apply List.Forall_nil|cbn; lia]. }
  repeat match goal with
         | |- context [rbind ?r _] =>
             destruct r; cbn [rbind];
             [|eexists _, []; rewrite app_nil_r; cbn;
               repeat split; first [apply List.Forall_nil|cbn; lia]]
         end.
  eexists _, [_]. cbn. repeat split; try (cbn; lia).
  constructor; [|constructor]. by split.
Qed.

Lemma transform_loop_steps (w : world) (raw_data : list book) :
  ∀ (acc : Transform.totals) (st : state),
  ∃ acc' added,
    Transform.transform_loop w raw_data acc st
    = (Ok acc', Nat.iter (length added) tick st)
    ∧ Transform.processed acc' = Transform.processed acc ++ added
    ∧ Forall in_stock_record added
    ∧ Z.of_nat (length added)
      <= Transform.in_stock_count acc' - Transform.in_stock_count acc
    ∧ 0 <= Transform.out_of_stock_count acc'
           - Transform.out_of_stock_count acc
    ∧ (Transform.in_stock_count acc' - Transform.in_stock_count acc)
      + (Transform.out_of_stock_count acc'
         - Transform.out_of_stock_count acc)
      <= Z.of_nat (length raw_data).
Proof.
  induction raw_data as [|b raw_data IH]; intros acc st.
  - exists acc, []. rewrite app_nil_r. cbn.
    repeat split; first [apply List.Forall_nil|cbn; lia].
  - destruct (transform_book_step w b acc st)
      as (acc1 & l1 & Hstep & Hp1 & Hr1 & Hi1 & Ho1 & Hs1).
    destruct (IH acc1 (Nat.iter (length l1) tick st))
      as (acc2 & l2 & Hloop & Hp2 & Hr2 & Hi2 & Ho2 & Hs2).
    exists acc2, (l1 ++ l2). cbn [Transform.transform_loop].
    unfold bind at 1. rewrite Hstep, Hloop.
    rewrite length_app, Hp2, Hp1, <- app_assoc.
    change (length (b :: raw_data)) with (S (length raw_data)).
    split; [|repeat split; try (by apply Forall_app); lia].
    f_equal. rewrite Nat.add_comm. symmetry. apply Nat.iter_add.
Qed.

Lemma iter_tick (n : nat) (st : state) :
  same_outside st (Nat.iter n tick st)
  ∧ st_ticks (Nat.iter n tick st) = (st_ticks st + n)%nat.
Proof.
  unfold same_outside.
  induction n as [|n [(H1 & H2 & H3 & H4) H5]]; simpl.
  - by rewrite Nat.add_0_r.
  - by rewrite H5, Nat.add_succ_r.
Qed.

(** X9: [transform_data] makes no call to an outside service and leaves the
    staging table alone, whether it returns or raises; when it returns it
    has read the clock once for each processed record and twice for the
    summary. *)
Theorem transform_touches_only_the_clock (w : world) (raw_data : list book)
  (st : state) :
  let '(r, st') := Transform.transform_data w raw_data st in
  same_outside st st'
  ∧ match r with
    | Ok (processed, summary) =>
        st_ticks st' = (st_ticks st + length processed + 2)%nat
    | Raise _ => True
    end.
Proof.
  unfold Transform.transform_data. unfold bind at 1.
  destruct (transform_loop_steps w raw_data
              {| Transform.processed := [];
                 Transform.total_value_gbp := Py.PInt 0;
                 Transform.in_stock_count := 0;
                 Transform.out_of_stock_count := 0 |} st)
    as (acc & added & -> & Hp & _).
  cbn [Transform.processed app] in Hp.
  destruct (iter_tick (length added) st) as [(H1 & H2 & H3 & H4) H5].
  set (st1 := Nat.iter (length added) tick st) in *.
  unfold bind, utcnow, lift, ret.
  repeat match goal with
         | |- context [match ?r with Ok _ => _ | Raise _ => _ end] =>
             destruct r; cbn
         end;
    unfold same_outside; cbn; rewrite ?Hp; repeat split; try assumption; lia.
Qed.

(** X10: the summary and the list of a transform that returns.  The number
    of raw books is the length of the input; the two counters are not
    negative and together do not exceed it; every processed record is
    marked in stock and carries an availability that contains ["In stock"];
    the list is never longer than the in-stock counter. *)
Theorem transform_counts (w : world) (raw_data : list book) (st : state)
  (processed : list processed_book) (summary : summary) (st' : state) :
  Transform.transform_data w raw_data st = (Ok (processed, summary), st') →
  sm_total_books_raw summary = Z.of_nat (length raw_data)
  ∧ 0 <= sm_books_out_of_stock summary
  ∧ Z.of_nat (length processed) <= sm_books_in_stock summary
  ∧ sm_books_in_stock summary + sm_books_out_of_stock summary
    <= sm_total_books_raw summary
  ∧ Forall in_stock_record processed.
Proof.
  unfold Transform.transform_data. unfold bind at 1.
  destruct (transform_loop_steps w raw_data
              {| Transform.processed := [];
                 Transform.total_value_gbp := Py.PInt 0;
                 Transform.in_stock_count := 0;
                 Transform.out_of_stock_count := 0 |} st)
    as (acc & added & -> & Hp & Hrec & Hi & Ho & Hs).
  cbn [Transform.processed Transform.in_stock_count
         Transform.out_of_stock_count app] in *.
  unfold bind, utcnow, lift, ret.
  repeat match goal with
         | |- context [match ?r with Ok _ => _ | Raise _ => _ end] =>
             destruct r; cbn
         end; try discriminate.
  intros [= <- <- _]. cbn. rewrite Hp. repeat split; try assumption; lia.
Qed.

(** X11: a record in stock whose price is extracted but which has no title
    is counted in stock by the loop and is not added to the processed list:
    the summary can count more books in stock than the list holds. *)
Theorem untitled_book_is_counted_not_listed (w : world) (b : book)
  (acc : Transform.totals) (st : state) :
  b !! "title" = None →
  counts_in_stock b = true →
  ∃ acc',
    Transform.transform_book w b acc st = (Ok acc', st)
    ∧ Transform.in_stock_count acc' = Transform.in_stock_count acc + 1
    ∧ Transform.processed acc' = Transform.processed acc
    ∧ Transform.out_of_stock_count acc' = Transform.out_of_stock_count acc.
Proof.
  intros Htitle. unfold counts_in_stock, Transform.transform_book.
  destruct (rbind (subscript b "price") Transform.extract_price) as [p|];
    [|discriminate].
  destruct (subscript b "availability") as [a|]; [|discriminate].
  intros ->.
  destruct (Py.add (Transform.total_value_gbp acc) (Py.PFloat p)) as [t|];
    [|by eexists].
  unfold Transform.processed_fields, subscript at 1. rewrite Htitle.
  cbn [rbind]. by eexists.
Qed.

(** ** The Collector's run *)

(** The connection test passes when the acquisition, the [SELECT 1] and the
    commit go through, whatever the release does. *)
Lemma test_connection_passes (w : world) (st : state) :
  w_fault w (st_calls st) = None →
  w_fault w (S (st_calls st)) = None →
  w_fault w (S (S (st_calls st))) = None →
  DbUtils.test_connection w st
  = (Ok true,
     set_tables
       (set_log st (4 + st_calls st)
          (st_log st
           ++ [PoolGetConn; DbExecute SelectOne []; DbCommit; PoolPutConn]))
       (st_tx st) (st_tx st)).
Proof.
  intros H0 H1 H2.
  unfold DbUtils.test_connection, DbUtils.execute_query,
    DbUtils.with_connection, DbUtils.get_db_connection,
    DbUtils.return_db_connection, try_finally, try_except, Pg.execute,
    Pg.commit, Pg.rollback, bind, step, ret, raise, lift, outside.
  rewrite H0. cbn. rewrite H1. cbn. rewrite H2. cbn.
  unfold set_tables, set_log. cbn.
  destruct (w_fault w (S (S (S (st_calls st))))); cbn;
    rewrite <- !app_assoc; reflexivity.
Qed.

(** The insert of [save_to_rds] and its commit go through. *)
Lemma save_to_rds_ok (w : world) (books : list book)
  (run_date s3_key batch_id : list N) (st : state) :
  w_fault w (st_calls st) = None →
  w_fault w (S (st_calls st)) = None →
  w_fault w (S (S (st_calls st))) = None →
  let rows :=
    omap (row_of_book (w_db_now w (S (S (st_calls st)))) run_date batch_id)
      books in
  Extract.save_to_rds w books run_date s3_key batch_id st
  = (Ok (Z.of_nat (length rows)),
     set_tables
       (set_log st (4 + st_calls st)
          (st_log st
           ++ [PoolGetConn;
               DbExecuteMany InsertStaging
                 (Extract.batch_data books run_date batch_id);
               DbCommit; PoolPutConn]))
       (st_tx st ++ rows) (st_tx st ++ rows)).
Proof.
  intros H0 H1 H2 rows.
  unfold Extract.save_to_rds, DbUtils.with_connection,
    DbUtils.get_db_connection, DbUtils.return_db_connection, try_finally,
    try_except, Pg.executemany, Pg.commit, Pg.rollback, bind, step, ret,
    raise, outside.
  rewrite H0. cbn. rewrite H1. cbn.
  rewrite insert_rows_of_books. fold rows. cbn. rewrite H2. cbn.
  rewrite (batch_data_rows (w_db_now w (S (S (st_calls st))))). fold rows.
  unfold set_tables, set_log. cbn.
  destruct (w_fault w (S (S (S (st_calls st))))); cbn;
    rewrite <- !app_assoc; reflexivity.
Qed.

(** The insert of [save_to_rds] fails and the rollback goes through. *)
Lemma save_to_rds_rolls_back (w : world) (books : list book)
  (run_date s3_key batch_id : list N) (st : state) (e : exn) :
  w_fault w (st_calls st) = None →
  w_fault w (S (st_calls st)) = Some e →
  w_fault w (S (S (st_calls st))) = None →
  Extract.save_to_rds w books run_date s3_key batch_id st
  = (Raise e,
     set_tables
       (set_log st (4 + st_calls st)
          (st_log st
           ++ [PoolGetConn;
               DbExecuteMany InsertStaging
                 (Extract.batch_data books run_date batch_id);
               DbRollback; PoolPutConn]))
       (st_db st) (st_db st)).
Proof.
  intros H0 H1 H2.
  unfold Extract.save_to_rds, DbUtils.with_connection,
    DbUtils.get_db_connection, DbUtils.return_db_connection, try_finally,
    try_except, Pg.executemany, Pg.commit, Pg.rollback, bind, step, ret,
    raise, outside.
  rewrite H0. cbn. rewrite H1. cbn. rewrite H2. cbn.
  unfold set_tables, set_log. cbn.
  destruct (w_fault w (S (S (S (st_calls st))))); cbn;
    rewrite <- !app_assoc; reflexivity.
Qed.

(** X12: a run of the Collector in which every service answers and the
    page yields at least one record.  It returns the success result: the run
    date is that of the first clock reading and the batch identifier carries
    the stamp of the second; the scraped count is the number of records of the
    page and the inserted count the number of staging rows made of them.  The
    calls are, in this order, the connection test, the fetch, the put of the
    raw list under the raw key, and one connection used for the insert and its
    commit; the committed staging table gains exactly those rows. *)
Theorem collector_run (w : world) (st : state) :
  (∀ n, w_fault w n = None) →
  clock_in_range w →
  w_page w ≠ [] →
  let run_date := dt_date (w_clock w (st_ticks st)) in
  let batch_id :=
    Py.str "extract" ++ Py.str "_" ++ dt_stamp (w_clock w (S (st_ticks st))) in
  let rows :=
    omap (row_of_book (w_db_now w (8 + st_calls st)) run_date batch_id)
      (w_page w) in
  ∃ seconds st',
    Extract.lambda_handler w st
    = (Ok {| Extract.r_status := Py.str "success";
             Extract.r_run_date := run_date;
             Extract.r_batch_id := batch_id;
             Extract.r_records_scraped := Z.of_nat (length (w_page w));
             Extract.r_records_inserted_rds := Z.of_nat (length rows);
             Extract.r_s3_key := raw_key run_date;
             Extract.r_execution_time_seconds := seconds;
             Extract.r_timestamp :=
               dt_iso (w_clock w (S (S (st_ticks st)))) |}, st')
    ∧ st_log st'
      = st_log st
        ++ [PoolGetConn; DbExecute SelectOne []; DbCommit; PoolPutConn;
            HttpGet;
            S3PutObject (raw_key run_date) (RawBooks (w_page w));
            PoolGetConn;
            DbExecuteMany InsertStaging
              (Extract.batch_data (w_page w) run_date batch_id);
            DbCommit; PoolPutConn]
    ∧ st_db st' = st_tx st ++ rows.
Proof.
  intros Hfault Hclock Hpage run_date batch_id rows.
  unfold Extract.lambda_handler, DbUtils.generate_batch_id.
  unfold bind at 1. unfold utcnow at 1.
  unfold bind at 1. unfold bind at 1. unfold utcnow at 1. unfold ret at 1.
  unfold try_except, Extract.handler_body.
  unfold bind at 1. rewrite test_connection_passes by apply Hfault.
  cbn [set_tables set_log tick st_ticks st_calls st_log st_db st_tx].
  unfold bind at 1. unfold ret at 1.
  unfold bind at 1. unfold Extract.scrape_books, bind at 1, outside at 1, ret at 1.
  cbn [set_tables set_log tick st_ticks st_calls st_log st_db st_tx].
  rewrite Hfault.
  unfold bind at 1.
  destruct (w_page w) as [|b books] eqn:Hp; [done|]. cbn [length Nat.eqb]. unfold ret at 1.
  unfold bind at 1. unfold Extract.save_to_s3, S3.put_object, bind at 1, outside at 1.
  cbn [set_tables set_log tick st_ticks st_calls st_log st_db st_tx].
  rewrite Hfault. unfold ret at 1.
  unfold bind at 1. rewrite save_to_rds_ok by apply Hfault.
  cbn [set_tables set_log tick st_ticks st_calls st_log st_db st_tx].
  unfold bind, utcnow, lift, ret.
  cbn [set_tables set_log tick st_ticks st_calls st_log st_db st_tx].
  destruct (elapsed_seconds_ok (w_clock w (st_ticks st))
              (w_clock w (S (S (st_ticks st))))) as [seconds ->];
    [apply Hclock..|].
  eexists _, _. split; [reflexivity|].
  cbn [set_tables set_log tick st_ticks st_calls st_log st_db st_tx].
  rewrite <- !app_assoc. split; reflexivity.
Qed.

(** X13: the two writes of the Collector are not undone by one another.
    After a passed connection test and a fetch that found records: when the
    put of the raw list fails, the run raises that failure and never asks for
    the insert; when the put goes through and the insert fails, the insert is
    rolled back, the connection is released and the run raises the failure
    of the insert, while the raw object has been put and is not removed. *)
Theorem collector_writes_are_not_atomic (w : world) (st : state) (e : exn) :
  clock_in_range w →
  w_page w ≠ [] →
  (∀ n, (n < 5)%nat → w_fault w (n + st_calls st) = None) →
  let run_date := dt_date (w_clock w (st_ticks st)) in
  let batch_id :=
    Py.str "extract" ++ Py.str "_" ++ dt_stamp (w_clock w (S (st_ticks st))) in
  let before_the_insert :=
    st_log st
    ++ [PoolGetConn; DbExecute SelectOne []; DbCommit; PoolPutConn; HttpGet;
        S3PutObject (raw_key run_date) (RawBooks (w_page w))] in
  (w_fault w (5 + st_calls st) = Some e →
   ∃ st',
     Extract.lambda_handler w st = (Raise e, st')
     ∧ st_log st' = before_the_insert
     ∧ st_db st' = st_tx st ∧ st_tx st' = st_tx st)
  ∧ (w_fault w (5 + st_calls st) = None →
     w_fault w (6 + st_calls st) = None →
     w_fault w (7 + st_calls st) = Some e →
     w_fault w (8 + st_calls st) = None →
     ∃ st',
       Extract.lambda_handler w st = (Raise e, st')
       ∧ st_log st'
         = before_the_insert
           ++ [PoolGetConn;
               DbExecuteMany InsertStaging
                 (Extract.batch_data (w_page w) run_date batch_id);
               DbRollback; PoolPutConn]
       ∧ st_db st' = st_tx st ∧ st_tx st' = st_tx st).
Proof.
  intros Hclock Hpage Hfault run_date batch_id before_the_insert.
  assert (Hexcept : ∀ st1, st_ticks st1 = S (S (st_ticks st)) →
            Extract.handler_except w (w_clock w (st_ticks st)) e st1
            = (Raise e, tick st1)).
  { intros st1 Hticks. unfold Extract.handler_except, bind, utcnow, lift, raise.
    destruct (elapsed_seconds_ok (w_clock w (st_ticks st))
                (w_clock w (st_ticks st1))) as [seconds ->];
      [apply Hclock..|reflexivity]. }
  pose proof (Hfault 0%nat ltac:(lia)) as H0.
  pose proof (Hfault 1%nat ltac:(lia)) as H1.
  pose proof (Hfault 2%nat ltac:(lia)) as H2.
  pose proof (Hfault 4%nat ltac:(lia)) as H4.
  destruct (w_page w) as [|b books] eqn:Hp; [done|].
  split; [intros H5|intros H5 H6 H7 H8];
    change (5 + st_calls st)%nat with (S (4 + st_calls st)) in H5;
    unfold Extract.lambda_handler, DbUtils.generate_batch_id;
    unfold bind at 1; unfold utcnow at 1;
    unfold bind at 1; unfold bind at 1; unfold utcnow at 1; unfold ret at 1;
    unfold try_except, Extract.handler_body;
    unfold bind at 1; rewrite test_connection_passes by assumption;
    simpl_state;
    unfold bind at 1; unfold ret at 1;
    unfold bind at 1;
    unfold Extract.scrape_books, bind at 1, outside at 1, ret at 1;
    simpl_state; rewrite H4, Hp;
    unfold bind at 1;
    cbn [length Nat.eqb]; unfold ret at 1;
    unfold bind at 1;
    unfold Extract.save_to_s3, S3.put_object, bind at 1, outside at 1;
    simpl_state; fold (raw_key run_date); rewrite H5.
  - rewrite Hexcept by reflexivity.
    eexists. split; [reflexivity|]. simpl_state.
    unfold before_the_insert. rewrite <- !app_assoc. by repeat split.
  - unfold ret at 1. unfold bind at 1.
    rewrite (save_to_rds_rolls_back _ _ _ _ _ _ e) by assumption.
    rewrite Hexcept by reflexivity.
    eexists. split; [reflexivity|]. simpl_state.
    unfold before_the_insert. rewrite <- !app_assoc. by repeat split.
Qed.

(** ** The Reconciler's run *)

Lemma never_returns_bind_l {A B} (m : M A) (k : A → M B) :
  never_returns m → never_returns (bind m k).
Proof.
  intros Hm st. destruct (Hm st) as (e & st' & H).
  exists e, st'. unfold bind. by rewrite H.
Qed.

Lemma never_returns_bind_r {A B} (m : M A) (k : A → M B) :
  (∀ a, never_returns (k a)) → never_returns (bind m k).
Proof.
  intros Hk st. unfold bind. destruct (m st) as [[a|e] st1].
  - apply Hk.
  - by exists e, st1.
Qed.

Lemma batch_lookup_never_returns (w : world) (run_date : list N) :
  never_returns (Transform.get_extract_batch_id w run_date).
Proof.
  intros st.
  unfold Transform.get_extract_batch_id, DbUtils.with_connection,
    DbUtils.get_db_connection, DbUtils.return_db_connection, try_finally,
    try_except, Pg.execute, bind, step, ret, raise, lift, outside.
  destruct (w_fault w (st_calls st)); [by eexists _, _|]. cbn.
  destruct (w_fault w (S (st_calls st))); cbn;
    rewrite ?batch_id_query_rejected; cbn;
    destruct (w_fault w (S (S (st_calls st)))); by eexists _, _.
Qed.

Lemma handler_body_never_returns (w : world) (start_time : datetime)
  (run_date : list N) :
  never_returns (Transform.handler_body w start_time run_date).
Proof.
  unfold Transform.handler_body.
  apply never_returns_bind_r. intros ok.
  apply never_returns_bind_r. intros _.
  apply never_returns_bind_r. intros raw_data.
  apply never_returns_bind_r. intros [processed summary].
  apply never_returns_bind_r. intros [processed_key summary_key].
  apply never_returns_bind_l, batch_lookup_never_returns.
Qed.

Lemma logs_bind_l {A B} (P : event → Prop) (m : M A) (k : A → M B) :
  logs P m → never_returns m → logs P (bind m k).
Proof.
  intros Hm Hr st. unfold bind. destruct (Hm st) as (l & Hl & HP).
  destruct (Hr st) as (e & st' & Hst). rewrite Hst in *. by exists l.
Qed.

Lemma logs_try_finally {A} (P : event → Prop) (body : M A)
  (cleanup : M unit) :
  logs P body → logs P cleanup → logs P (try_finally body cleanup).
Proof.
  intros Hb Hc st. unfold try_finally. destruct (Hb st) as (l1 & Hl1 & HP1).
  destruct (body st) as [r st1]. cbn [snd] in Hl1.
  destruct (Hc st1) as (l2 & Hl2 & HP2).
  exists (l1 ++ l2).
  destruct (cleanup st1) as [[u|e] st2]; cbn [snd] in *;
    rewrite Hl2, Hl1, app_assoc; (split; [reflexivity|by apply Forall_app]).
Qed.

Lemma logs_with_connection {A} (P : event → Prop) (w : world)
  (on_error : M unit) (body : M A) :
  P PoolGetConn → P PoolPutConn → logs P body → logs P on_error →
  logs P (DbUtils.with_connection w on_error body).
Proof.
  intros Hget Hput Hbody Herr.
  change (DbUtils.with_connection w on_error body)
    with (bind (DbUtils.get_db_connection w)
            (λ _, try_finally (try_except body (λ e, on_error ;; raise e))
                    (DbUtils.return_db_connection w))).
  apply logs_bind; [by apply logs_outside|]. intros _.
  apply logs_try_finally.
  - apply logs_try_except; [assumption|]. intros e.
    apply logs_bind; [assumption|]. intros _. apply logs_raise.
  - intros st. exists [PoolPutConn]. unfold DbUtils.return_db_connection, outside.
    destruct (w_fault w (st_calls st)); cbn; (split; [reflexivity|by constructor]).
Qed.

Lemma logs_pg_execute (P : event → Prop) (w : world) (q : sql)
  (params : list sqlval) :
  P (DbExecute q params) → logs P (Pg.execute w q params).
Proof.
  intros HP. apply logs_bind; [by apply logs_outside|]. intros _.
  apply logs_step. intros st. destruct q; cbn; try reflexivity.
  - by destruct (Pg.insert_row _ _).
  - by destruct (Pg.select _ _ _).
  - by destruct (w_cdc w params (st_tx st)).
Qed.

Lemma logs_pg_end (P : event → Prop) (w : world) :
  P DbCommit → P DbRollback →
  logs P (Pg.commit w) ∧ logs P (Pg.rollback w).
Proof.
  intros Hc Hr.
  split; (apply logs_bind; [by apply logs_outside|]); intros _;
    by apply logs_step.
Qed.

Lemma transform_data_outside (w : world) (raw_data : list book) (st : state) :
  same_outside st (snd (Transform.transform_data w raw_data st)).
Proof.
  unfold Transform.transform_data. unfold bind at 1.
  destruct (transform_loop_steps w raw_data
              {| Transform.processed := [];
                 Transform.total_value_gbp := Py.PInt 0;
                 Transform.in_stock_count := 0;
                 Transform.out_of_stock_count := 0 |} st)
    as (acc & added & -> & _).
  destruct (iter_tick (length added) st) as [(H1 & H2 & H3 & H4) _].
  set (st1 := Nat.iter (length added) tick st) in *.
  unfold bind, utcnow, lift, ret.
  repeat match goal with
         | |- context [match ?r with Ok _ => _ | Raise _ => _ end] =>
             destruct r; cbn
         end;
    unfold same_outside; cbn; by repeat split.
Qed.

Lemma reconciler_calls (w : world) :
  logs (λ ev, ¬ is_cdc_call ev) (Transform.lambda_handler w).
Proof.
  set (P := λ ev, ¬ is_cdc_call ev).
  assert (Hany : ∀ ev, (match ev with DbExecute CallProcessCdcBatch _ => False | _ => True end) → P ev).
  { intros ev Hev Hcdc. by destruct ev as [| | | | |[]| | |]. }
  destruct (logs_pg_end P w) as [Hcommit Hrollback]; [by apply Hany..|].
  unfold Transform.lambda_handler.
  apply logs_bind; [apply logs_utcnow|]. intros start_time.
  apply logs_try_except.
  2: { intros e. unfold Transform.handler_except.
       apply logs_bind; [apply logs_utcnow|]. intros end_time.
       apply logs_bind; [apply logs_lift|]. intros seconds. apply logs_ret. }
  unfold Transform.handler_body.
  apply logs_bind.
  { unfold DbUtils.test_connection. apply logs_try_except; [|intros; apply logs_ret].
    apply logs_bind; [|intros; apply logs_ret].
    apply logs_with_connection; [by apply Hany..| |assumption].
    apply logs_bind; [by apply logs_pg_execute, Hany|]. intros cur.
    apply logs_bind; [apply logs_lift|]. intros rows.
    apply logs_bind; [assumption|]. intros _. apply logs_ret. }
  intros ok. apply logs_bind; [destruct ok; [apply logs_ret|apply logs_raise]|].
  intros _. apply logs_bind.
  { unfold Transform.read_from_s3. apply logs_try_except.
    - unfold S3.get_object. apply logs_bind; [by apply logs_outside, Hany|].
      intros _. destruct (w_raw w _); [apply logs_ret|apply logs_raise].
    - intros e. destruct (String.eqb _ _); apply logs_raise. }
  intros raw_data. apply logs_bind.
  { intros st. exists []. rewrite app_nil_r. split; [|constructor].
    apply (transform_data_outside w raw_data st). }
  intros [processed summary]. apply logs_bind.
  { unfold Transform.save_processed_to_s3, S3.put_object.
    apply logs_bind; [by apply logs_outside, Hany|]. intros _.
    apply logs_bind; [by apply logs_outside, Hany|]. intros _.
    apply logs_ret. }
  intros [processed_key summary_key].
  apply logs_bind_l; [|apply batch_lookup_never_returns].
  unfold Transform.get_extract_batch_id.
  apply logs_with_connection; [by apply Hany..| |apply logs_ret].
  apply logs_bind; [by apply logs_pg_execute, Hany|]. intros cur.
  apply logs_bind; [apply logs_lift|].
  intros [[|batch row]|]; first [apply logs_raise|apply logs_ret].
Qed.

(** X14: the Reconciler never calls the stored procedure.  Its batch
    lookup raises in every state (when the pool or the database fails, and
    otherwise because the database rejects the statement), so whatever the
    services answer the handler returns the error result with status 500, and
    no call of [process_cdc_batch] is among the calls it made. *)
Theorem reconciler_never_reaches_the_cdc (w : world) (st : state) :
  clock_in_range w →
  ∃ error_message error_type seconds timestamp st' calls,
    Transform.lambda_handler w st
    = (Ok {| Transform.statusCode := 500;
             Transform.response_body :=
               Transform.ErrorBody (dt_date (w_clock w (st_ticks st)))
                 error_message error_type seconds timestamp |}, st')
    ∧ st_log st' = st_log st ++ calls
    ∧ Forall (λ ev, ¬ is_cdc_call ev) calls.
Proof.
  intros Hclock.
  destruct (reconciler_calls w st) as (calls & Hcalls & Hnone).
  set (start_time := w_clock w (st_ticks st)).
  change (Transform.lambda_handler w st)
    with (try_except (Transform.handler_body w start_time (dt_date start_time))
            (Transform.handler_except w start_time (dt_date start_time))
            (tick st)) in *.
  unfold try_except in *.
  destruct (handler_body_never_returns w start_time (dt_date start_time)
              (tick st)) as (e & st1 & Hbody).
  rewrite Hbody in *.
  unfold Transform.handler_except, bind, utcnow, lift, ret in *.
  destruct (elapsed_seconds_ok start_time (w_clock w (st_ticks st1)))
    as [seconds Hs]; [apply Hclock..|].
  rewrite Hs in *.
  by eexists _, _, _, _, _, calls.
Qed.

(** ** The secret cache and the connection pool *)



(** X15: a secret is fetched once.  When [get_secret] returns, the same
    call in the state it leaves returns the same secret without calling
    Secrets Manager, whatever Secrets Manager would answer by then, and the
    entries of the other names are untouched; when it raises (the call
    fails, the value is binary, or the text is not JSON) the cache is what it
    was, so that the next call asks again. *)
Theorem secret_is_fetched_once (w w' : Pool.pworld) (secret_name : list N)
  (st : Pool.pstate) :
  match Pool.get_secret w secret_name st with
  | (Ok secret, st1) =>
      Pool.get_secret w' secret_name st1 = (Ok secret, st1)
      ∧ ∀ other, other ≠ secret_name →
          Pool.secrets_cache st1 !! other = Pool.secrets_cache st !! other
  | (Raise _, st1) => Pool.secrets_cache st1 = Pool.secrets_cache st
  end.
Proof.
  unfold Pool.get_secret at 1, Pool.call.
  destruct (Pool.secrets_cache st !! secret_name) as [secret|] eqn:Hcache.
  - unfold Pool.get_secret. by rewrite Hcache.
  - destruct (Pool.pw_fault w (Pool.ps_calls st)); [reflexivity|].
    destruct (Pool.pw_secret w secret_name) as [[secret|e]|]; try reflexivity.
    split.
    + unfold Pool.get_secret. cbn. by rewrite lookup_insert_eq.
    + intros other Hother. cbn. by rewrite lookup_insert_ne.
Qed.

(** The secret and its cache as [init_connection_pool] finds them. *)
Lemma get_secret_cases (w : Pool.pworld) (secret_name : list N)
  (st : Pool.pstate) :
  let '(r, st') := Pool.get_secret w secret_name st in
  Pool.connection_pool st' = Pool.connection_pool st
  ∧ (∃ calls, Pool.ps_log st' = Pool.ps_log st ++ calls
       ∧ (calls = [] ∨ calls = [Pool.GetSecretValue secret_name]))
  ∧ match r with
    | Ok secret => Pool.secrets_cache st' !! secret_name = Some secret
    | Raise _ => True
    end.
Proof.
  unfold Pool.get_secret, Pool.call.
  destruct (Pool.secrets_cache st !! secret_name) as [secret|] eqn:Hcache.
  { split; [reflexivity|]. split; [|assumption].
    exists []. rewrite app_nil_r. by split; [|left]. }
  destruct (Pool.pw_fault w (Pool.ps_calls st)); cbn.
  { split; [reflexivity|]. split; [|exact I]. eexists. by split; [|right]. }
  destruct (Pool.pw_secret w secret_name) as [[secret|e]|]; cbn;
    (split; [reflexivity|]);
    (split; [eexists; by split; [|right]|]);
    try exact I.
  by rewrite lookup_insert_eq.
Qed.

(** When no required field is reported missing, the five of them are in the
    secret. *)
Lemma missing_fields_none (db_config : gmap string sqlval) :
  List.filter (λ f, negb (bool_decide (is_Some (db_config !! f))))
    Pool.required_fields = [] →
  ∀ f, f ∈ Pool.required_fields →
    db_config !! f = Some (Pool.field db_config f).
Proof.
  intros Hnone f Hf. unfold Pool.field.
  destruct (db_config !! f) as [v|] eqn:Hv; [reflexivity|].
  exfalso.
  assert (Hin : In f (List.filter
                        (λ f, negb (bool_decide (is_Some (db_config !! f))))
                        Pool.required_fields)).
  { apply List.filter_In. split; [by apply list_elem_of_In|].
    rewrite Hv. rewrite bool_decide_eq_false_2; [reflexivity|].
    by intros [? ?]. }
  rewrite Hnone in Hin. destruct Hin.
Qed.

(** X16: [init_connection_pool] creates a pool only from a complete
    configuration.  Whatever it returns, the only calls it makes are a fetch
    of the secret that [DB_SECRET_NAME] names (a non-empty name) and a
    creation of the pool whose host, port, database, user and password are
    the fields [host], [port], [dbname], [username] and [password] of that
    secret, present in it, whose sizes are the integers of the environment
    (0 and 2 by default) and whose time limits are those of the source; it
    does not assign the pool itself; and when it returns a pool, the
    creation was its last call and had the sizes of that pool. *)
Theorem pool_is_created_from_a_complete_secret (w : Pool.pworld)
  (st : Pool.pstate) :
  let '(r, st') := Pool.init_connection_pool w st in
  ∃ calls,
    Pool.ps_log st' = Pool.ps_log st ++ calls
    ∧ Forall (configured_call w st') calls
    ∧ Pool.connection_pool st' = Pool.connection_pool st
    ∧ match r with
      | Ok p =>
          ∃ earlier host port database user password,
            calls
            = earlier
              ++ [Pool.CreatePool (Pool.minconn p) (Pool.maxconn p) host port
                    database user password 10
                    (Py.str "-c statement_timeout=30000")]
      | Raise _ => True
      end.
Proof.
  unfold Pool.init_connection_pool.
  destruct (Pool.pw_env w !! "DB_SECRET_NAME") as [[|c name]|] eqn:Henv;
    try (exists []; rewrite app_nil_r; by repeat split).
  pose proof (get_secret_cases w (c :: name) st) as Hsecret.
  destruct (Pool.get_secret w (c :: name) st) as [[db_config|e] st1].
  2: { destruct Hsecret as (Hpool & (calls & Hlog & Hcalls) & _).
       exists calls. repeat split; try assumption.
       destruct Hcalls as [->| ->]; repeat constructor; done. }
  destruct Hsecret as (Hpool & (calls & Hlog & Hcalls) & Hcache).
  assert (Hfetch : Forall (configured_call w st1) calls).
  { destruct Hcalls as [->| ->]; repeat constructor; done. }
  destruct (List.filter _ Pool.required_fields) as [|f missing] eqn:Hmissing.
  2: { exists calls. by repeat split. }
  pose proof (missing_fields_none db_config Hmissing) as Hfields.
  destruct (Pool.env_int w "DB_POOL_MIN_SIZE" (Py.str "0")) as [min_size|]
    eqn:Hmin; [|exists calls; by repeat split].
  destruct (Pool.env_int w "DB_POOL_MAX_SIZE" (Py.str "2")) as [max_size|]
    eqn:Hmax; [|exists calls; by repeat split].
  unfold Pool.call.
  set (create := Pool.CreatePool min_size max_size
                   (Pool.field db_config "host") (Pool.field db_config "port")
                   (Pool.field db_config "dbname")
                   (Pool.field db_config "username")
                   (Pool.field db_config "password") 10
                   (Py.str "-c statement_timeout=30000")).
  set (st2 := {| Pool.ps_calls := S (Pool.ps_calls st1);
                 Pool.ps_log := Pool.ps_log st1 ++ [create];
                 Pool.connection_pool := Pool.connection_pool st1;
                 Pool.secrets_cache := Pool.secrets_cache st1 |}).
  assert (Hcreate : configured_call w st2 create).
  { exists (c :: name), db_config.
    repeat split; try assumption; try reflexivity;
      apply Hfields; repeat constructor. }
  assert (Hall : Pool.ps_log st2 = Pool.ps_log st ++ calls ++ [create]
                 ∧ Forall (configured_call w st2) (calls ++ [create])
                 ∧ Pool.connection_pool st2 = Pool.connection_pool st).
  { split; [cbn; by rewrite Hlog, app_assoc|]. split; [|assumption].
    apply Forall_app. split; [|by repeat constructor].
    eapply Forall_impl; [exact Hfetch|]. by intros []. }
  destruct Hall as (H1 & H2 & H3).
  destruct (Pool.pw_fault w (Pool.ps_calls st1)); exists (calls ++ [create]).
  - by repeat split.
  - repeat split; try assumption. by eexists _, _, _, _, _, _.
Qed.

Lemma get_secret_keeps_the_pool (w : Pool.pworld) (secret_name : list N)
  (st : Pool.pstate) :
  Pool.connection_pool (snd (Pool.get_secret w secret_name st))
  = Pool.connection_pool st.
Proof.
  pose proof (get_secret_cases w secret_name st) as H.
  destruct (Pool.get_secret w secret_name st) as [r st']. apply H.
Qed.

(** [init_connection_pool] does not assign the pool, and the pool it returns
    has the sizes read from the environment. *)
Lemma init_connection_pool_sizes (w : Pool.pworld) (st : Pool.pstate) :
  let '(r, st') := Pool.init_connection_pool w st in
  Pool.connection_pool st' = Pool.connection_pool st
  ∧ match r with
    | Ok p =>
        Pool.env_int w "DB_POOL_MIN_SIZE" (Py.str "0") = Ok (Pool.minconn p)
        ∧ Pool.env_int w "DB_POOL_MAX_SIZE" (Py.str "2") = Ok (Pool.maxconn p)
    | Raise _ => True
    end.
Proof.
  unfold Pool.init_connection_pool.
  destruct (Pool.pw_env w !! "DB_SECRET_NAME") as [[|c name]|]; try done.
  pose proof (get_secret_keeps_the_pool w (c :: name) st) as Hpool.
  destruct (Pool.get_secret w (c :: name) st) as [[db_config|e] st1];
    cbn [snd] in Hpool; [|done].
  destruct (List.filter _ Pool.required_fields); [|done].
  destruct (Pool.env_int w "DB_POOL_MIN_SIZE" (Py.str "0")); [|done].
  destruct (Pool.env_int w "DB_POOL_MAX_SIZE" (Py.str "2")); [|done].
  unfold Pool.call. by destruct (Pool.pw_fault w (Pool.ps_calls st1)).
Qed.



(** With a pool, [get_db_connection] only asks it for a connection. *)
Lemma get_db_connection_warm (w : Pool.pworld) (st : Pool.pstate) :
  is_Some (Pool.connection_pool st) →
  Pool.get_db_connection w st
  = (getconn_outcome w (Pool.ps_calls st), after_getconn st).
Proof.
  intros [p Hp]. unfold Pool.get_db_connection, getconn_outcome, Pool.call.
  rewrite Hp.
  destruct (Pool.pw_fault w (Pool.ps_calls st)); [reflexivity|].
  by destruct (Pool.pw_getconn w (Pool.ps_calls st)).
Qed.

(** Without a pool, it initialises one first and keeps it. *)
Lemma get_db_connection_cold (w : Pool.pworld) (st : Pool.pstate) :
  Pool.connection_pool st = None →
  Pool.get_db_connection w st
  = match Pool.init_connection_pool w st with
    | (Ok p, st1) =>
        (getconn_outcome w (Pool.ps_calls st1),
         after_getconn (Pool.set_pool st1 (Some p)))
    | (Raise e, st1) => (Raise e, st1)
    end.
Proof.
  intros Hp. unfold Pool.get_db_connection, getconn_outcome, Pool.call.
  rewrite Hp.
  destruct (Pool.init_connection_pool w st) as [[p|e] st1]; [|reflexivity].
  cbn. destruct (Pool.pw_fault w (Pool.ps_calls st1)); [reflexivity|].
  by destruct (Pool.pw_getconn w (Pool.ps_calls st1)).
Qed.

Lemma get_db_connection_ok_pool (w : Pool.pworld) (st : Pool.pstate)
  (conn : nat) (st' : Pool.pstate) :
  Pool.get_db_connection w st = (Ok conn, st') →
  is_Some (Pool.connection_pool st').
Proof.
  destruct (Pool.connection_pool st) as [p|] eqn:Hp.
  - rewrite get_db_connection_warm by (by rewrite Hp).
    intros [= _ <-]. cbn. by rewrite Hp.
  - rewrite get_db_connection_cold by assumption.
    destruct (Pool.init_connection_pool w st) as [[p|e] st1]; [|discriminate].
    intros [= _ <-]. by eexists.
Qed.

(** X17: after a call of [get_db_connection] that returned, there is a
    pool, and the next call makes one call only, the request of a connection
    to that pool: the secret is not fetched, no pool is created and the
    environment is not consulted, even if they have changed.  Its outcome is
    that of the request: the failure of the call, the connection, or the
    "pool exhausted" exception when the pool hands out [None]. *)
Theorem warm_start_reuses_the_pool (w w' : Pool.pworld) (st : Pool.pstate)
  (conn : nat) (st1 : Pool.pstate) :
  Pool.get_db_connection w st = (Ok conn, st1) →
  ∃ st2,
    Pool.get_db_connection w' st1
    = (getconn_outcome w' (Pool.ps_calls st1), st2)
    ∧ Pool.ps_log st2 = Pool.ps_log st1 ++ [Pool.GetConn]
    ∧ Pool.connection_pool st2 = Pool.connection_pool st1
    ∧ is_Some (Pool.connection_pool st1)
    ∧ Pool.secrets_cache st2 = Pool.secrets_cache st1.
Proof.
  intros Hfirst. apply get_db_connection_ok_pool in Hfirst.
  rewrite get_db_connection_warm by assumption.
  by eexists.
Qed.

(** X18: the sizes of the environment reach the statistics.  After a first
    [get_db_connection] that returned, [get_connection_stats] reports the
    status "initialized" and, as sizes, the integers that [int] reads from
    [DB_POOL_MIN_SIZE] and [DB_POOL_MAX_SIZE] (0 and 2 where they are not
    set), and no other key. *)
Theorem pool_sizes_come_from_the_environment (w : Pool.pworld)
  (st : Pool.pstate) (conn : nat) (st' : Pool.pstate) :
  Pool.connection_pool st = None →
  Pool.get_db_connection w st = (Ok conn, st') →
  ∃ min_size max_size,
    Pool.env_int w "DB_POOL_MIN_SIZE" (Py.str "0") = Ok min_size
    ∧ Pool.env_int w "DB_POOL_MAX_SIZE" (Py.str "2") = Ok max_size
    ∧ Pool.get_connection_stats st'
      = <["min_size" := VInt min_size]>
          (<["max_size" := VInt max_size]>
             (<["status" := VText (Py.str "initialized")]> ∅)).
Proof.
  intros Hcold. rewrite get_db_connection_cold by assumption.
  pose proof (init_connection_pool_sizes w st) as Hinit.
  destruct (Pool.init_connection_pool w st) as [[p|e] st1]; [|discriminate].
  destruct Hinit as (_ & Hmin & Hmax).
  intros [= _ <-]. by exists (Pool.minconn p), (Pool.maxconn p).
Qed.

(** X19: a failed initialisation leaves no pool behind.  Without a pool,
    when [init_connection_pool] raises, [get_db_connection] raises the same
    exception in the same state, asks for no connection and the pool is still
    [None], so that the next call initialises again; when it returns a pool,
    that pool is kept whatever the request of a connection gives. *)
Theorem failed_start_leaves_no_pool (w : Pool.pworld) (st : Pool.pstate) :
  Pool.connection_pool st = None →
  let '(r, st') := Pool.get_db_connection w st in
  match Pool.init_connection_pool w st with
  | (Raise e, st1) =>
      r = Raise e ∧ st' = st1 ∧ Pool.connection_pool st' = None
  | (Ok p, st1) =>
      r = getconn_outcome w (Pool.ps_calls st1)
      ∧ Pool.connection_pool st' = Some p
      ∧ Pool.ps_log st' = Pool.ps_log st1 ++ [Pool.GetConn]
  end.
Proof.
  intros Hcold. rewrite get_db_connection_cold by assumption.
  pose proof (init_connection_pool_sizes w st) as Hinit.
  destruct (Pool.init_connection_pool w st) as [[p|e] st1]; [done|].
  destruct Hinit as [Hpool _]. by rewrite Hpool.
Qed.

(** X20: the two clean-up functions never raise.  [return_db_connection]
    calls [putconn] only when there is a pool and a connection, swallows its
    failure and never changes the pool.  [close_all_connections] does nothing
    without a pool; with one it calls [closeall], and forgets the pool,
    after which the statistics say "not_initialized", only when that call
    went through: when it fails the pool is kept. *)
Theorem cleanup_never_raises (w : Pool.pworld) (st : Pool.pstate)
  (conn : option nat) :
  (∃ st',
     Pool.return_db_connection w conn st = (Ok tt, st')
     ∧ Pool.connection_pool st' = Pool.connection_pool st
     ∧ Pool.ps_log st'
       = Pool.ps_log st
         ++ match Pool.connection_pool st, conn with
            | Some _, Some c => [Pool.PutConn c]
            | _, _ => []
            end)
  ∧ ∃ st',
      Pool.close_all_connections w st = (Ok tt, st')
      ∧ Pool.secrets_cache st' = Pool.secrets_cache st
      ∧ match Pool.connection_pool st, Pool.pw_fault w (Pool.ps_calls st) with
        | None, _ => st' = st
        | Some _, None =>
            Pool.connection_pool st' = None
            ∧ Pool.ps_log st' = Pool.ps_log st ++ [Pool.CloseAll]
            ∧ Pool.get_connection_stats st' !! "status"
              = Some (VText (Py.str "not_initialized"))
        | Some p, Some _ =>
            Pool.connection_pool st' = Some p
            ∧ Pool.ps_log st' = Pool.ps_log st ++ [Pool.CloseAll]
        end.
Proof.
  split.
  - unfold Pool.return_db_connection, Pool.call.
    destruct (Pool.connection_pool st) as [p|] eqn:Hp, conn as [c|];
      try (eexists; rewrite app_nil_r; by repeat split).
    destruct (Pool.pw_fault w (Pool.ps_calls st)); by eexists.
  - unfold Pool.close_all_connections, Pool.call.
    destruct (Pool.connection_pool st) as [p|] eqn:Hp; [|by eexists].
    destruct (Pool.pw_fault w (Pool.ps_calls st)); by eexists.
Qed.

(** ** The further properties at concrete inputs *)

Lemma prices_agree_without_circumflex_example :
  let price := Py.str "1" ++ (Py.pound :: Py.str "2.50") in
  (Py.a_circumflex ∉ price)
  ∧ Transform.extract_price price = Extract.parse_price price.
Proof.
  intros price.
  assert (Ha : Py.a_circumflex ∉ price)
    by (apply (bool_decide_unpack _); vm_compute; exact I).
  split; [exact Ha|].
  exact (prices_agree_without_circumflex price Ha).
Defined.

Lemma transform_counts_example :
  ∃ processed summary st',
    Transform.transform_data quiet_world [book_A; book_untitled; book_B]
      (initial_state [])
    = (Ok (processed, summary), st')
    ∧ sm_total_books_raw summary
      = Z.of_nat (length [book_A; book_untitled; book_B])
    ∧ 0 <= sm_books_out_of_stock summary
    ∧ Z.of_nat (length processed) <= sm_books_in_stock summary
    ∧ sm_books_in_stock summary + sm_books_out_of_stock summary
      <= sm_total_books_raw summary
    ∧ Forall in_stock_record processed.
Proof.
  eexists _, _, _.
  split; [|eapply (transform_counts quiet_world
                     [book_A; book_untitled; book_B] (initial_state []))];
    vm_compute; reflexivity.
Defined.

Lemma untitled_book_is_counted_not_listed_example :
  book_untitled !! "title" = None
  ∧ counts_in_stock book_untitled = true
  ∧ ∃ acc',
      Transform.transform_book quiet_world book_untitled no_totals
        (initial_state [])
      = (Ok acc', initial_state [])
      ∧ Transform.in_stock_count acc' = Transform.in_stock_count no_totals + 1
      ∧ Transform.processed acc' = Transform.processed no_totals
      ∧ Transform.out_of_stock_count acc'
        = Transform.out_of_stock_count no_totals.
Proof.
  assert (H1 : book_untitled !! "title" = None) by (vm_compute; reflexivity).
  assert (H2 : counts_in_stock book_untitled = true)
    by (vm_compute; reflexivity).
  split; [exact H1|]. split; [exact H2|].
  exact (untitled_book_is_counted_not_listed quiet_world book_untitled
           no_totals (initial_state []) H1 H2).
Defined.

Lemma shop_clock_in_range (failure : option (nat * exn)) :
  clock_in_range (shop_world failure).
Proof. intros n. unfold datetime_in_range. cbn. lia. Defined.

Lemma collector_run_example :
  let w := shop_world None in
  let rows :=
    omap (row_of_book (w_db_now w 8) run_day morning_batch) (w_page w) in
  (∀ n, w_fault w n = None)
  ∧ clock_in_range w
  ∧ w_page w ≠ []
  ∧ length rows = 2%nat
  ∧ ∃ seconds st',
      Extract.lambda_handler w (initial_state [])
      = (Ok {| Extract.r_status := Py.str "success";
               Extract.r_run_date := run_day;
               Extract.r_batch_id := morning_batch;
               Extract.r_records_scraped := 3;
               Extract.r_records_inserted_rds := Z.of_nat (length rows);
               Extract.r_s3_key := raw_key run_day;
               Extract.r_execution_time_seconds := seconds;
               Extract.r_timestamp := dt_iso morning |}, st')
      ∧ st_log st'
        = [] ++ [PoolGetConn; DbExecute SelectOne []; DbCommit; PoolPutConn;
                 HttpGet;
                 S3PutObject (raw_key run_day) (RawBooks (w_page w));
                 PoolGetConn;
                 DbExecuteMany InsertStaging
                   (Extract.batch_data (w_page w) run_day morning_batch);
                 DbCommit; PoolPutConn]
      ∧ st_db st' = [] ++ rows.
Proof.
  intros w rows.
  assert (H1 : ∀ n, w_fault w n = None) by reflexivity.
  assert (H3 : w_page w ≠ []) by discriminate.
  split; [exact H1|]. split; [exact (shop_clock_in_range None)|].
  split; [exact H3|]. split; [vm_compute; reflexivity|].
  exact (collector_run w (initial_state []) H1 (shop_clock_in_range None) H3).
Defined.

Lemma collector_writes_are_not_atomic_example :
  let w := shop_world (Some (5%nat, put_denied)) in
  let w' := shop_world (Some (7%nat, deadlock_detected)) in
  let before_the_insert :=
    [PoolGetConn; DbExecute SelectOne []; DbCommit; PoolPutConn; HttpGet;
     S3PutObject (raw_key run_day) (RawBooks (w_page w))] in
  (∀ n, (n < 5)%nat → w_fault w (n + 0) = None)
  ∧ (∃ st',
       Extract.lambda_handler w (initial_state []) = (Raise put_denied, st')
       ∧ st_log st' = [] ++ before_the_insert
       ∧ st_db st' = [] ∧ st_tx st' = [])
  ∧ ∃ st',
      Extract.lambda_handler w' (initial_state [])
      = (Raise deadlock_detected, st')
      ∧ st_log st'
        = ([] ++ before_the_insert)
          ++ [PoolGetConn;
              DbExecuteMany InsertStaging
                (Extract.batch_data (w_page w') run_day morning_batch);
              DbRollback; PoolPutConn]
      ∧ st_db st' = [] ∧ st_tx st' = [].
Proof.
  intros w w' before_the_insert.
  assert (H : ∀ n, (n < 5)%nat → w_fault w (n + 0) = None).
  { intros [|[|[|[|[|n]]]]] Hn; [reflexivity..|lia]. }
  assert (H' : ∀ n, (n < 5)%nat → w_fault w' (n + 0) = None).
  { intros [|[|[|[|[|n]]]]] Hn; [reflexivity..|lia]. }
  split; [exact H|]. split.
  - exact (proj1 (collector_writes_are_not_atomic w (initial_state [])
                    put_denied (shop_clock_in_range _)
                    ltac:(discriminate) H) eq_refl).
  - exact (proj2 (collector_writes_are_not_atomic w' (initial_state [])
                    deadlock_detected (shop_clock_in_range _)
                    ltac:(discriminate) H') eq_refl eq_refl eq_refl eq_refl).
Defined.

Lemma reconciler_never_reaches_the_cdc_example :
  let w := shop_world None in
  clock_in_range w
  ∧ ∃ error_message error_type seconds timestamp st' calls,
      Transform.lambda_handler w (initial_state [staged_row 1 morning_batch])
      = (Ok {| Transform.statusCode := 500;
               Transform.response_body :=
                 Transform.ErrorBody run_day error_message error_type
                   seconds timestamp |}, st')
      ∧ st_log st' = [] ++ calls
      ∧ Forall (λ ev, ¬ is_cdc_call ev) calls.
Proof.
  intros w. split; [exact (shop_clock_in_range None)|].
  exact (reconciler_never_reaches_the_cdc w
           (initial_state [staged_row 1 morning_batch])
           (shop_clock_in_range None)).
Defined.

Lemma warm_start_reuses_the_pool_example :
  ∃ st1,
    Pool.get_db_connection pool_world cold_pstate = (Ok 2%nat, st1)
    ∧ ∃ st2,
        Pool.get_db_connection bare_pool_world st1
        = (getconn_outcome bare_pool_world (Pool.ps_calls st1), st2)
        ∧ Pool.ps_log st2 = Pool.ps_log st1 ++ [Pool.GetConn]
        ∧ Pool.connection_pool st2 = Pool.connection_pool st1
        ∧ is_Some (Pool.connection_pool st1)
        ∧ Pool.secrets_cache st2 = Pool.secrets_cache st1.
Proof.
  eexists. split; [vm_compute; reflexivity|].
  eapply (warm_start_reuses_the_pool pool_world bare_pool_world cold_pstate).
  vm_compute. reflexivity.
Defined.

Lemma pool_sizes_come_from_the_environment_example :
  Pool.connection_pool cold_pstate = None
  ∧ ∃ st',
      Pool.get_db_connection pool_world cold_pstate = (Ok 2%nat, st')
      ∧ ∃ min_size max_size,
          Pool.env_int pool_world "DB_POOL_MIN_SIZE" (Py.str "0")
          = Ok min_size
          ∧ Pool.env_int pool_world "DB_POOL_MAX_SIZE" (Py.str "2")
            = Ok max_size
          ∧ Pool.get_connection_stats st'
            = <["min_size" := VInt min_size]>
                (<["max_size" := VInt max_size]>
                   (<["status" := VText (Py.str "initialized")]> ∅)).
Proof.
  split; [reflexivity|].
  eexists. split; [vm_compute; reflexivity|].
  eapply (pool_sizes_come_from_the_environment pool_world cold_pstate);
    [reflexivity|vm_compute; reflexivity].
Defined.

Lemma failed_start_leaves_no_pool_example :
  Pool.connection_pool cold_pstate = None
  ∧ let '(r, st') := Pool.get_db_connection bare_pool_world cold_pstate in
    match Pool.init_connection_pool bare_pool_world cold_pstate with
    | (Raise e, st1) =>
        r = Raise e ∧ st' = st1 ∧ Pool.connection_pool st' = None
    | (Ok p, st1) =>
        r = getconn_outcome bare_pool_world (Pool.ps_calls st1)
        ∧ Pool.connection_pool st' = Some p
        ∧ Pool.ps_log st' = Pool.ps_log st1 ++ [Pool.GetConn]
    end.
Proof.
  split; [reflexivity|].
  exact (failed_start_leaves_no_pool bare_pool_world cold_pstate eq_refl).
Defined.
